(** * Remote queries manager (vscode-codeql): result mapping, auto-download
      admission and the monitoring workflow

    Shallow embedding of
    [extensions/ql-vscode/src/remote-queries/remote-queries-manager.ts].

    Conventions of the embedding.
    - A JavaScript [number] that holds a byte size, a count or an artifact
      identifier is an integer of [Z]; [String(n)], [n.toString()] and the
      interpolation of a number in a template literal are the decimal
      rendering [pretty].
    - [x ? a : b] on an optional number follows JavaScript truthiness:
      [undefined] and [0] are falsy.
    - A promise that is awaited either fulfils with a value or rejects; the
      rejection propagates to the caller as a thrown error ([Throw]).
    - The collaborators the class imports (credential provider, submission,
      workflow monitor, index retrieval, file system, clock, identifier
      generator) are not part of the file: what they answer is read from an
      environment [Env], and every call to them is recorded, in program
      order, in the list of events an operation emits. *)

From stdpp Require Import base option list strings gmap pretty.

Open Scope Z_scope.

(** ** Data model *)

(** Modelled from the spec: the interfaces [RemoteQueryResultIndexItem] and
    [RemoteQueryResultIndex] (remote-query-result-index.ts) are imported, not
    defined, by the file.  The fields are the ones [mapQueryResult] reads; the
    SARIF size is the optional one ("SARIF size present and nonzero"). *)
Record RemoteQueryResultIndexItem := {
  item_artifactId : Z;
  item_nwo : string;
  item_resultCount : Z;
  item_bqrsFileSize : Z;
  item_sarifFileSize : option Z;
}.

Record RemoteQueryResultIndex := {
  artifactsUrlPath : string;
  items : list RemoteQueryResultIndexItem;
}.

(** [DownloadLink] and the element type of [analysisSummaries], as built by the
    object literals of [mapQueryResult]. *)
Record DownloadLink := {
  id : string;
  urlPath : string;
  innerFilePath : string;
  queryId : string;
}.

Record AnalysisSummary := {
  nwo : string;
  resultCount : Z;
  fileSizeInBytes : Z;
  downloadLink : DownloadLink;
}.

Record RemoteQueryResult := {
  executionEndTime : Z;
  analysisSummaries : list AnalysisSummary;
}.

(** The element type of [analysesToDownload], as built by the object literal
    of [autoDownloadRemoteQueryResults]. *)
Record AnalysisDownloadRequest := {
  req_nwo : string;
  req_resultCount : Z;
  req_downloadLink : DownloadLink;
  req_fileSize : string;
}.

(** ** JavaScript primitives used by the file *)

(** Truthiness of an optional number: [undefined] and [0] are falsy. *)
Definition truthy (n : option Z) : bool :=
  match n with
  | Some z => negb (z =? 0)
  | None => false
  end.

(** [String(n)], [n.toString()] and [`${n}`] for an integer [n]. *)
Definition String_of_number (n : Z) : string := pretty n.

(** [arr.slice(0, n)] for a natural [n]. *)
Definition slice0 {A} (n : nat) (arr : list A) : list A := take n arr.

(** ** Constants *)

Definition autoDownloadMaxSize : Z := 300 * 1024.
Definition autoDownloadMaxCount : nat := 100.

(** ** mapQueryResult *)

Definition mapItem (resultIndex : RemoteQueryResultIndex) (queryId : string)
    (item : RemoteQueryResultIndexItem) : AnalysisSummary :=
  {| nwo := item_nwo item;
     resultCount := item_resultCount item;
     fileSizeInBytes :=
       if truthy (item_sarifFileSize item)
       then default 0 (item_sarifFileSize item)
       else item_bqrsFileSize item;
     downloadLink :=
       {| id := String_of_number (item_artifactId item);
          urlPath := artifactsUrlPath resultIndex +:+ "/"
                     +:+ String_of_number (item_artifactId item);
          innerFilePath :=
            if truthy (item_sarifFileSize item)
            then "results.sarif" else "results.bqrs";
          queryId := queryId |} |}.

Definition mapQueryResult (executionEndTime : Z)
    (resultIndex : RemoteQueryResultIndex) (queryId : string)
    : RemoteQueryResult :=
  let analysisSummaries := mapItem resultIndex queryId <$> items resultIndex in
  {| executionEndTime := executionEndTime;
     analysisSummaries := analysisSummaries |}.

(** ** The admission filter of autoDownloadRemoteQueryResults *)

Definition toDownloadRequest (a : AnalysisSummary) : AnalysisDownloadRequest :=
  {| req_nwo := nwo a;
     req_resultCount := resultCount a;
     req_downloadLink := downloadLink a;
     req_fileSize := String_of_number (fileSizeInBytes a) |}.

Definition underMaxSize (a : AnalysisSummary) : Prop :=
  fileSizeInBytes a < autoDownloadMaxSize.

#[global] Instance underMaxSize_dec a : Decision (underMaxSize a).
Proof. unfold underMaxSize. apply _. Defined.

Definition analysesToDownload (queryResult : RemoteQueryResult)
    : list AnalysisDownloadRequest :=
  toDownloadRequest <$>
    slice0 autoDownloadMaxCount
      (filter underMaxSize (analysisSummaries queryResult)).

(** ** Collaborator types *)

(** Modelled from the spec: [RemoteQuery] (remote-query.ts) is imported.  A
    job is "a name, the set of target repositories, and a server-assigned
    identifier used for polling"; the file reads [queryName] and
    [repositories.length]. *)
Record RemoteQuery := {
  queryName : string;
  repositories : list string;
  actionsWorkflowRunId : Z;
}.

(** Modelled from the spec: the result of the monitor collaborator
    (remote-query-workflow-result.ts).  The four status literals are the ones
    [monitorRemoteQuery] compares against; [error] is read in the
    [CompletedUnsuccessfully] branch and may be [undefined]. *)
Inductive RemoteQueryWorkflowStatus :=
  | InProgress
  | CompletedSuccessfully
  | CompletedUnsuccessfully
  | Cancelled.

Record RemoteQueryWorkflowResult := {
  wf_status : RemoteQueryWorkflowStatus;
  wf_error : option string;
}.

(** Modelled from the spec: the enumeration [QueryStatus] (query-status.ts),
    "status: enum{InProgress,Completed,Failed}". *)
Module QueryStatus.
Inductive t := InProgress | Completed | Failed.
End QueryStatus.

(** Modelled from the spec: the class [RemoteQueryHistoryItem]
    (remote-query-history-item.ts).  Its three constructor arguments and the
    mutable fields "completed: bool, status, failureReason: string?"; a new
    entry is registered "in InProgress-equivalent status", not completed and
    without a failure reason. *)
Record RemoteQueryHistoryItem := {
  label : string;
  hi_queryId : string;
  hi_storagePath : string;
  failureReason : option string;
  status : QueryStatus.t;
  completed : bool;
}.

Definition RemoteQueryHistoryItem_constructor
    (label queryId storagePath : string) : RemoteQueryHistoryItem :=
  {| label := label;
     hi_queryId := queryId;
     hi_storagePath := storagePath;
     failureReason := None;
     status := QueryStatus.InProgress;
     completed := false |}.

(** Modelled from the spec: what the submission collaborator
    (run-remote-query.ts) resolves to, "{job?}": nothing at all, or an object
    whose [query] may be missing. *)
Record RemoteQuerySubmissionResult := {
  submitted_query : option RemoteQuery;
}.

Inductive Credentials := MkCredentials (token : string).

Inductive Uri := MkUri (path : string).

(** ** The world, the environment and the events *)

(** A value handed to [JSON.stringify] by [storeFile], or passed as the
    argument of a command. *)
Inductive Payload :=
  | QueryPayload (query : RemoteQuery)
  | QueryResultPayload (queryResult : RemoteQueryResult).

(** A history entry is a mutable object shared between [monitorRemoteQuery]
    and the history manager: the manager keeps a reference ([qhm_entries]),
    the object lives in [heap], and a reference is an index of [heap].  A path
    is kept as the list of the segments given to [path.join]. *)
Record World := {
  heap : list RemoteQueryHistoryItem;
  qhm_entries : list nat;
  files : gmap (list string) Payload;
}.

Inductive Completion (A : Type) :=
  | Normal (a : A)
  | Throw (e : string).
Arguments Normal {A} a.
Arguments Throw {A} e.

(** What the collaborators answer.  An awaited call may reject. *)
Record Env := {
  ext_nanoid : string;
  ext_now : Z;
  ext_activeTextEditor_uri : option Uri;
  ext_createTimestampFile : list string → Completion unit;
  ext_writeFile : list string → Payload → Completion unit;
  ext_Credentials_initialize : Completion Credentials;
  ext_runRemoteQuery :
    Credentials → option Uri → bool → Completion (option RemoteQuerySubmissionResult);
  ext_monitorQuery : RemoteQuery → Completion RemoteQueryWorkflowResult;
  ext_getRemoteQueryIndex :
    Credentials → RemoteQuery → Completion (option RemoteQueryResultIndex);
  ext_showAndLogErrorMessage : string → Completion unit;
  ext_downloadAnalysesResults : list AnalysisDownloadRequest → Completion unit;
}.

(** The calls an operation makes, in program order. *)
Inductive Event :=
  | CreateTimestampFile (path : list string)
  | WriteFile (path : list string) (obj : Payload)
  | AddQuery (item : nat)
  | InitializeCredentials
  | RunRemoteQuery (credentials : Credentials) (uri : option Uri) (dryRun : bool)
  | MonitorQuery (query : RemoteQuery)
  | GetRemoteQueryIndex (credentials : Credentials) (query : RemoteQuery)
  | ShowAndLogErrorMessage (message : string)
  | ShowInformationMessageWithAction (message action : string)
  | ExecuteCommand (command : string) (arg : Payload)
  | DownloadAnalysesResults (requests : list AnalysisDownloadRequest)
  | RefreshTreeView.

(** ** The monad of operations: environment, world, events, rejection *)

Definition M (A : Type) : Type :=
  Env → World → Completion A * World * list Event.

Definition ret {A} (a : A) : M A := λ _ w, (Normal a, w, []).

Definition bind {A B} (m : M A) (k : A → M B) : M B :=
  λ env w,
    match m env w with
    | (Normal a, w1, evs1) =>
        match k a env w1 with
        | (r, w2, evs2) => (r, w2, evs1 ++ evs2)
        end
    | (Throw e, w1, evs1) => (Throw e, w1, evs1)
    end.

Declare Scope prog_scope.
Delimit Scope prog_scope with prog.
Notation "x ← y ; z" := (bind y (λ x, z))
  (at level 20, y at level 100, z at level 200, only parsing) : prog_scope.
Notation "x ;; z" := (bind x (λ _, z))
  (at level 100, z at level 200, only parsing, right associativity) : prog_scope.

(** Reads an answer of the environment that cannot fail. *)
Definition ask {A} (f : Env → A) : M A := λ env w, (Normal (f env), w, []).

(** An awaited call of a collaborator: the event, then its answer. *)
Definition await {A} (ev : Event) (answer : Env → Completion A) : M A :=
  λ env w, (answer env, w, [ev]).

(** A call whose promise is discarded ([void f(...)]): the event only. *)
Definition void (ev : Event) : M unit := λ _ w, (Normal tt, w, [ev]).

(** A synchronous call of the history manager. *)
Definition sync (ev : Event) (f : World → World) : M unit :=
  λ _ w, (Normal tt, f w, [ev]).

(** A silent change of the world (a field assignment, an allocation). *)
Definition state {A} (f : World → A * World) : M A :=
  λ _ w, let '(a, w') := f w in (Normal a, w', []).

(** ** Collaborator calls *)

Definition Credentials_initialize : M Credentials :=
  await InitializeCredentials ext_Credentials_initialize.

Definition createTimestampFile (path : list string) : M unit :=
  await (CreateTimestampFile path) (λ env, ext_createTimestampFile env path).

(** [fs.writeFile(path, JSON.stringify(obj, null, 2), 'utf8')]: the file holds
    the object once the write has succeeded. *)
Definition fs_writeFile (path : list string) (obj : Payload) : M unit :=
  λ env w,
    match ext_writeFile env path obj with
    | Normal _ =>
        (Normal tt,
         {| heap := heap w; qhm_entries := qhm_entries w;
            files := <[path := obj]> (files w) |},
         [WriteFile path obj])
    | Throw e => (Throw e, w, [WriteFile path obj])
    end.

Definition run_remote_query_runRemoteQuery (credentials : Credentials)
    (uri : option Uri) (dryRun : bool) : M (option RemoteQuerySubmissionResult) :=
  await (RunRemoteQuery credentials uri dryRun)
        (λ env, ext_runRemoteQuery env credentials uri dryRun).

Definition remoteQueriesMonitor_monitorQuery (query : RemoteQuery)
    : M RemoteQueryWorkflowResult :=
  await (MonitorQuery query) (λ env, ext_monitorQuery env query).

Definition getRemoteQueryIndex (credentials : Credentials) (query : RemoteQuery)
    : M (option RemoteQueryResultIndex) :=
  await (GetRemoteQueryIndex credentials query)
        (λ env, ext_getRemoteQueryIndex env credentials query).

Definition showAndLogErrorMessage (message : string) : M unit :=
  await (ShowAndLogErrorMessage message)
        (λ env, ext_showAndLogErrorMessage env message).

Definition commands_executeCommand (command : string) (arg : Payload) : Event :=
  ExecuteCommand command arg.

Definition analysesResultsManager_downloadAnalysesResults
    (analysesToDownload : list AnalysisDownloadRequest) : M unit :=
  await (DownloadAnalysesResults analysesToDownload)
        (λ env, ext_downloadAnalysesResults env analysesToDownload).

(** ** The history manager and the history entry *)

(** [new RemoteQueryHistoryItem(...)]: a fresh object; its reference is the
    next free index of the heap. *)
Definition new_RemoteQueryHistoryItem (label queryId storagePath : string)
    : M nat :=
  state (λ w,
    (length (heap w),
     {| heap := heap w ++ [RemoteQueryHistoryItem_constructor label queryId storagePath];
        qhm_entries := qhm_entries w;
        files := files w |})).

Definition qhm_addQuery (item : nat) : M unit :=
  sync (AddQuery item) (λ w,
    {| heap := heap w; qhm_entries := qhm_entries w ++ [item];
       files := files w |}).

Definition qhm_refreshTreeView : M unit := sync RefreshTreeView (λ w, w).

(** A field assignment on the object behind a reference. *)
Definition assign (item : nat)
    (f : RemoteQueryHistoryItem → RemoteQueryHistoryItem) : M unit :=
  state (λ w,
    (tt, {| heap := alter f item (heap w); qhm_entries := qhm_entries w;
            files := files w |})).

Definition set_completed (v : bool) (it : RemoteQueryHistoryItem) :=
  {| label := label it; hi_queryId := hi_queryId it;
     hi_storagePath := hi_storagePath it; failureReason := failureReason it;
     status := status it; completed := v |}.

Definition set_status (v : QueryStatus.t) (it : RemoteQueryHistoryItem) :=
  {| label := label it; hi_queryId := hi_queryId it;
     hi_storagePath := hi_storagePath it; failureReason := failureReason it;
     status := v; completed := completed it |}.

Definition set_failureReason (v : option string) (it : RemoteQueryHistoryItem) :=
  {| label := label it; hi_queryId := hi_queryId it;
     hi_storagePath := hi_storagePath it; failureReason := v;
     status := status it; completed := completed it |}.

(** ** Template literals *)

(** The double-quote character. *)
Definition dquote : string := String (Ascii.ascii_of_nat 34) EmptyString.

(** [`${s}`] for an optional string: [undefined] renders as "undefined". *)
Definition interpolate (s : option string) : string := default "undefined" s.

Definition status_literal (s : RemoteQueryWorkflowStatus) : string :=
  match s with
  | InProgress => "InProgress"
  | CompletedSuccessfully => "CompletedSuccessfully"
  | CompletedUnsuccessfully => "CompletedUnsuccessfully"
  | Cancelled => "Cancelled"
  end.

(** ** The class RemoteQueriesManager *)

(** Of the constructor's fields only [storagePath] is data; the others are
    handles of the collaborators, whose answers are in [Env]. *)
Record RemoteQueriesManager := {
  storagePath : string;
}.

Section Methods.
Variable this : RemoteQueriesManager.
Local Open Scope prog_scope.

Definition createQueryId (queryName : string) : M string :=
  nanoid ← ask ext_nanoid;
  ret (queryName +:+ "-" +:+ nanoid).

Definition prepareStorageDirectory (queryId : string) : M unit :=
  createTimestampFile [storagePath this; queryId].

Definition storeFile (queryId fileName : string) (obj : Payload) : M unit :=
  let filePath := [storagePath this; queryId; fileName] in
  fs_writeFile filePath obj.

(** The [reduce] of [askToOpenResults]. *)
Definition totalResultCount (queryResult : RemoteQueryResult) : Z :=
  foldl (λ acc cur, acc + resultCount cur) 0 (analysisSummaries queryResult).

Definition askToOpenResults_message (query : RemoteQuery)
    (queryResult : RemoteQueryResult) : string :=
  "Query " +:+ dquote +:+ queryName query +:+ dquote +:+ " run on "
    +:+ String_of_number (Z.of_nat (length (repositories query)))
    +:+ " repositories and returned "
    +:+ String_of_number (totalResultCount queryResult) +:+ " results".

(** [askToOpenResults] up to its first suspension: the prompt is shown.  What
    follows the [await] (opening the results view when the user picks
    "View") runs after [monitorRemoteQuery] has gone on. *)
Definition askToOpenResults (query : RemoteQuery)
    (queryResult : RemoteQueryResult) : Event :=
  ShowInformationMessageWithAction
    (askToOpenResults_message query queryResult) "View".

(** How the classification of [monitorRemoteQuery] is left: by its
    [return], or by falling out of the [if] chain. *)
Inductive Flow := Returned | FellThrough.

Definition runRemoteQuery (uri : option Uri) : M unit :=
  credentials ← Credentials_initialize;
  activeUri ← ask ext_activeTextEditor_uri;
  querySubmission ← run_remote_query_runRemoteQuery credentials
    (match uri with Some u => Some u | None => activeUri end) false;
  match querySubmission with
  | Some {| submitted_query := Some query |} =>
      void (commands_executeCommand "codeQL.monitorRemoteQuery"
              (QueryPayload query))
  | _ => ret tt
  end.

(** The outcome is one of four literals, so the final [else] of the
    classification, with its [assertNever], is never taken. *)
Definition monitorRemoteQuery (query : RemoteQuery) : M unit :=
  queryId ← createQueryId (queryName query);
  prepareStorageDirectory queryId;;
  storeFile queryId "query.json" (QueryPayload query);;
  queryHistoryItem ←
    new_RemoteQueryHistoryItem (queryName query) queryId (storagePath this);
  qhm_addQuery queryHistoryItem;;
  credentials ← Credentials_initialize;
  queryWorkflowResult ← remoteQueriesMonitor_monitorQuery query;
  executionEndTime ← ask ext_now;
  flow ←
    match wf_status queryWorkflowResult with
    | CompletedSuccessfully =>
        resultIndex ← getRemoteQueryIndex credentials query;
        match resultIndex with
        | None =>
            void (ShowAndLogErrorMessage
              ("There was an issue retrieving the result for the query "
                 +:+ queryName query));;
            ret Returned
        | Some resultIndex =>
            assign queryHistoryItem (set_completed true);;
            assign queryHistoryItem (set_status QueryStatus.Completed);;
            let queryResult :=
              mapQueryResult executionEndTime resultIndex queryId in
            storeFile queryId "query-result.json"
              (QueryResultPayload queryResult);;
            void (commands_executeCommand
                    "codeQL.autoDownloadRemoteQueryResults"
                    (QueryResultPayload queryResult));;
            void (askToOpenResults query queryResult);;
            ret FellThrough
        end
    | CompletedUnsuccessfully =>
        assign queryHistoryItem
          (set_failureReason (wf_error queryWorkflowResult));;
        assign queryHistoryItem (set_status QueryStatus.Failed);;
        showAndLogErrorMessage
          ("Remote query execution failed. Error: "
             +:+ interpolate (wf_error queryWorkflowResult));;
        ret FellThrough
    | Cancelled =>
        assign queryHistoryItem (set_failureReason (Some "Cancelled"));;
        assign queryHistoryItem (set_status QueryStatus.Failed);;
        showAndLogErrorMessage "Remote query monitoring was cancelled";;
        ret FellThrough
    | InProgress =>
        showAndLogErrorMessage
          ("Unexpected status: "
             +:+ status_literal (wf_status queryWorkflowResult));;
        ret FellThrough
    end;
  match flow with
  | Returned => ret tt
  | FellThrough => qhm_refreshTreeView
  end.

(** The callback given to the download engine forwards the results to the
    results view when the engine calls it; it is part of the engine's run. *)
Definition autoDownloadRemoteQueryResults (queryResult : RemoteQueryResult)
    : M unit :=
  let analysesToDownload := analysesToDownload queryResult in
  analysesResultsManager_downloadAnalysesResults analysesToDownload.

End Methods.

(** * Vocabulary of the monitoring workflow *)

Section Terms.
Variables (this : RemoteQueriesManager) (env : Env) (query : RemoteQuery).

(** The storage key [monitorRemoteQuery] generates. *)
Definition storageKey : string := queryName query +:+ "-" +:+ ext_nanoid env.

Definition queryJsonPath : list string :=
  [storagePath this; storageKey; "query.json"].

Definition queryResultJsonPath : list string :=
  [storagePath this; storageKey; "query-result.json"].

(** Polling was reached and answered [result]: the storage directory and
    [query.json] were written, the credentials obtained, and the monitor
    fulfilled with [result]. *)
Record polled (credentials : Credentials) (result : RemoteQueryWorkflowResult)
    : Prop := {
  polled_directory :
    ext_createTimestampFile env [storagePath this; storageKey] = Normal tt;
  polled_query_json :
    ext_writeFile env queryJsonPath (QueryPayload query) = Normal tt;
  polled_credentials : ext_Credentials_initialize env = Normal credentials;
  polled_result : ext_monitorQuery env query = Normal result;
}.

(** The entry as [monitorRemoteQuery] constructs it, and as each
    classification that writes to it leaves it. *)
Definition registeredItem : RemoteQueryHistoryItem :=
  RemoteQueryHistoryItem_constructor (queryName query) storageKey (storagePath this).

Definition completedItem : RemoteQueryHistoryItem :=
  set_status QueryStatus.Completed (set_completed true registeredItem).

Definition failedItem (reason : option string) : RemoteQueryHistoryItem :=
  set_status QueryStatus.Failed (set_failureReason reason registeredItem).

(** The world once the entry is registered, the entry being [item]. *)
Definition tracking (w : World) (item : RemoteQueryHistoryItem) : World :=
  {| heap := heap w ++ [item];
     qhm_entries := qhm_entries w ++ [length (heap w)];
     files := <[queryJsonPath := QueryPayload query]> (files w) |}.

(** The events up to the registration, and up to the poll. *)
Definition registrationEvents (w : World) : list Event :=
  [CreateTimestampFile [storagePath this; storageKey];
   WriteFile queryJsonPath (QueryPayload query);
   AddQuery (length (heap w))].

Definition pollingEvents (w : World) : list Event :=
  registrationEvents w ++ [InitializeCredentials; MonitorQuery query].

(** The messages of the four reports. *)
Definition cancelledMessage : string := "Remote query monitoring was cancelled".

Definition failedMessage (result : RemoteQueryWorkflowResult) : string :=
  "Remote query execution failed. Error: " +:+ interpolate (wf_error result).

Definition unexpectedMessage : string := "Unexpected status: InProgress".

Definition retrievalMessage : string :=
  "There was an issue retrieving the result for the query " +:+ queryName query.

(** ** Kinds of events *)

(** The job descriptor was written to [query.json]. *)
Definition jobPersisted (e : Event) : Prop :=
  e = WriteFile queryJsonPath (QueryPayload query)
  ∧ ext_writeFile env queryJsonPath (QueryPayload query) = Normal tt.

(** The summary mapped from the retrieved index was written to
    [query-result.json]. *)
Definition summaryPersisted (e : Event) : Prop :=
  ∃ credentials resultIndex,
    ext_getRemoteQueryIndex env credentials query = Normal (Some resultIndex)
    ∧ e = WriteFile queryResultJsonPath
            (QueryResultPayload (mapQueryResult (ext_now env) resultIndex storageKey))
    ∧ ext_writeFile env queryResultJsonPath
        (QueryResultPayload (mapQueryResult (ext_now env) resultIndex storageKey))
      = Normal tt.

End Terms.

Definition autoDownloadCommand : string := "codeQL.autoDownloadRemoteQueryResults".

Definition monitorCommand : string := "codeQL.monitorRemoteQuery".

Definition historyRegistration (e : Event) : Prop :=
  match e with AddQuery _ => True | _ => False end.

Definition pollingBegins (e : Event) : Prop :=
  match e with MonitorQuery _ => True | _ => False end.

(** A result summary is handed to the file system. *)
Definition writesSummary (e : Event) : Prop :=
  match e with WriteFile _ (QueryResultPayload _) => True | _ => False end.

Definition autoDownloadTriggered (e : Event) : Prop :=
  match e with ExecuteCommand c _ => c = autoDownloadCommand | _ => False end.

Definition commandTriggered (e : Event) : Prop :=
  match e with ExecuteCommand _ _ => True | _ => False end.

(** An effect of monitoring: storage, history registration, polling, index
    retrieval or the refresh of the history view. *)
Definition monitoringEffect (e : Event) : Prop :=
  match e with
  | CreateTimestampFile _ | WriteFile _ _ | AddQuery _ | MonitorQuery _
  | GetRemoteQueryIndex _ _ | RefreshTreeView => True
  | _ => False
  end.

(** Every event of [evs] that satisfies [Q] has an earlier event that
    satisfies [P]. *)
Definition precedes (P Q : Event → Prop) (evs : list Event) : Prop :=
  ∀ (i : nat) (e : Event), evs !! i = Some e → Q e →
    ∃ (j : nat) (e' : Event), (j < i)%nat ∧ evs !! j = Some e' ∧ P e'.

(** [uri || window.activeTextEditor?.document.uri] *)
Definition submissionTarget (env : Env) (uri : option Uri) : option Uri :=
  match uri with Some u => Some u | None => ext_activeTextEditor_uri env end.

(** [querySubmission && querySubmission.query] *)
Definition submittedJob (querySubmission : option RemoteQuerySubmissionResult)
    : option RemoteQuery :=
  match querySubmission with
  | Some s => submitted_query s
  | None => None
  end.

(** * Sample inputs *)

Module Sample.

Definition manager : RemoteQueriesManager := {| storagePath := "/storage" |}.

Definition job : RemoteQuery :=
  {| queryName := "find-xss";
     repositories := ["octo/alpha"; "octo/beta"; "octo/gamma"];
     actionsWorkflowRunId := 4711 |}.

Definition index : RemoteQueryResultIndex :=
  {| artifactsUrlPath := "/repos/octo/controller/actions/artifacts";
     items :=
       [ {| item_artifactId := 11; item_nwo := "octo/alpha"; item_resultCount := 3;
            item_bqrsFileSize := 90000; item_sarifFileSize := Some 100000 |};
         {| item_artifactId := 12; item_nwo := "octo/beta"; item_resultCount := 4;
            item_bqrsFileSize := 400000; item_sarifFileSize := None |};
         {| item_artifactId := 13; item_nwo := "octo/gamma"; item_resultCount := 0;
            item_bqrsFileSize := 50000; item_sarifFileSize := Some 0 |} ] |}.

Definition credentials : Credentials := MkCredentials "token".

Definition outcome (s : RemoteQueryWorkflowStatus) : RemoteQueryWorkflowResult :=
  {| wf_status := s;
     wf_error := match s with CompletedUnsuccessfully => Some "boom" | _ => None end |}.

(** Every collaborator fulfils; the monitor answers [s], index retrieval
    answers [idx], the submission answers [submission]. *)
Definition env (s : RemoteQueryWorkflowStatus)
    (idx : option RemoteQueryResultIndex)
    (submission : option RemoteQuerySubmissionResult) : Env :=
  {| ext_nanoid := "V1StGXR8";
     ext_now := 1650000000000;
     ext_activeTextEditor_uri := Some (MkUri "/work/query.ql");
     ext_createTimestampFile := λ _, Normal tt;
     ext_writeFile := λ _ _, Normal tt;
     ext_Credentials_initialize := Normal credentials;
     ext_runRemoteQuery := λ _ _ _, Normal submission;
     ext_monitorQuery := λ _, Normal (outcome s);
     ext_getRemoteQueryIndex := λ _ _, Normal idx;
     ext_showAndLogErrorMessage := λ _, Normal tt;
     ext_downloadAnalysesResults := λ _, Normal tt |}.

(** The same, for monitoring alone. *)
Definition answering (s : RemoteQueryWorkflowStatus)
    (idx : option RemoteQueryResultIndex) : Env := env s idx None.

(** A world that already tracks one older, completed entry. *)
Definition world : World :=
  {| heap := [ {| label := "older"; hi_queryId := "older-1";
                  hi_storagePath := "/storage"; failureReason := None;
                  status := QueryStatus.Completed; completed := true |} ];
     qhm_entries := [0%nat];
     files := ∅ |}.

End Sample.

(** * Further kinds of events *)

Definition directoryCreation (e : Event) : Prop :=
  match e with CreateTimestampFile _ => True | _ => False end.

Definition fileWrite (e : Event) : Prop :=
  match e with WriteFile _ _ => True | _ => False end.

Definition errorReport (e : Event) : Prop :=
  match e with ShowAndLogErrorMessage _ => True | _ => False end.

(** The path an event writes to, when it writes. *)
Definition writtenPath (e : Event) : option (list string) :=
  match e with
  | CreateTimestampFile p => Some p
  | WriteFile p _ => Some p
  | _ => None
  end.

(** * Sample environments in which a collaborator rejects *)

Module Rejecting.

Definition successful : Env :=
  Sample.answering CompletedSuccessfully (Some Sample.index).


(** The credentials cannot be obtained. *)
Definition signIn : Env :=
  {| ext_nanoid := ext_nanoid successful;
     ext_now := ext_now successful;
     ext_activeTextEditor_uri := ext_activeTextEditor_uri successful;
     ext_createTimestampFile := ext_createTimestampFile successful;
     ext_writeFile := ext_writeFile successful;
     ext_Credentials_initialize := Throw "not signed in";
     ext_runRemoteQuery := ext_runRemoteQuery successful;
     ext_monitorQuery := ext_monitorQuery successful;
     ext_getRemoteQueryIndex := ext_getRemoteQueryIndex successful;
     ext_showAndLogErrorMessage := ext_showAndLogErrorMessage successful;
     ext_downloadAnalysesResults := ext_downloadAnalysesResults successful |}.


End Rejecting.
(** * Properties of the result mapper *)

Section Mapper.
Variables (executionEndTime : Z) (resultIndex : RemoteQueryResultIndex)
          (storageKey : string).

Lemma truthy_Some_nonzero (s : Z) : s ≠ 0 → truthy (Some s) = true.
Proof. intros Hs. unfold truthy. by apply negb_true_iff, Z.eqb_neq. Qed.

Lemma truthy_absent_or_zero (o : option Z) :
  o = None ∨ o = Some 0 → truthy o = false.
Proof. by intros [-> | ->]. Qed.

Lemma mapQueryResult_lookup (i : nat) :
  analysisSummaries (mapQueryResult executionEndTime resultIndex storageKey) !! i
  = mapItem resultIndex storageKey <$> items resultIndex !! i.
Proof. unfold mapQueryResult; simpl. apply list_lookup_fmap. Qed.

Lemma mapQueryResult_length :
  length (analysisSummaries (mapQueryResult executionEndTime resultIndex storageKey))
  = length (items resultIndex).
Proof. unfold mapQueryResult; simpl. apply length_fmap. Qed.

(** C3.  The summary mapped from the [i]-th entry of the index selects kind
    and size together: a SARIF size that is present and nonzero gives that
    size and the file kind "results.sarif"; an absent or zero SARIF size
    gives the BQRS size and the file kind "results.bqrs". *)
Theorem mapQueryResult_kind_size_joint (i : nat) (item : RemoteQueryResultIndexItem) :
  items resultIndex !! i = Some item →
  ∃ a : AnalysisSummary,
    analysisSummaries (mapQueryResult executionEndTime resultIndex storageKey) !! i
      = Some a
    ∧ (∀ s : Z, item_sarifFileSize item = Some s → s ≠ 0 →
         fileSizeInBytes a = s
         ∧ innerFilePath (downloadLink a) = "results.sarif")
    ∧ (item_sarifFileSize item = None ∨ item_sarifFileSize item = Some 0 →
         fileSizeInBytes a = item_bqrsFileSize item
         ∧ innerFilePath (downloadLink a) = "results.bqrs").
Proof.
  intros Hitem. exists (mapItem resultIndex storageKey item).
  split; [by rewrite mapQueryResult_lookup, Hitem |].
  split.
  - intros s Hs Hnz. unfold mapItem; simpl.
    rewrite Hs, (truthy_Some_nonzero s Hnz). done.
  - intros Habsent. unfold mapItem; simpl.
    by rewrite (truthy_absent_or_zero _ Habsent).
Qed.

(** C5.  Mapping keeps the entries in place: there are as many summaries as
    index entries, the [i]-th summary carries the target and the result
    count of the [i]-th entry, its retrieval path is the artifacts base path,
    a slash and the entry's artifact identifier, and its descriptor carries
    the storage key it was given.  Being a function, the mapping gives equal
    summaries for equal arguments. *)
Theorem mapQueryResult_order_preserving :
  length (analysisSummaries (mapQueryResult executionEndTime resultIndex storageKey))
    = length (items resultIndex)
  ∧ (∀ (i : nat) (item : RemoteQueryResultIndexItem),
       items resultIndex !! i = Some item →
       ∃ a : AnalysisSummary,
         analysisSummaries
           (mapQueryResult executionEndTime resultIndex storageKey) !! i = Some a
         ∧ nwo a = item_nwo item
         ∧ resultCount a = item_resultCount item
         ∧ urlPath (downloadLink a)
           = artifactsUrlPath resultIndex +:+ "/"
               +:+ String_of_number (item_artifactId item)
         ∧ queryId (downloadLink a) = storageKey)
  ∧ (∀ a : AnalysisSummary,
       a ∈ analysisSummaries
             (mapQueryResult executionEndTime resultIndex storageKey) →
       queryId (downloadLink a) = storageKey).
Proof.
  split; [apply mapQueryResult_length |]. split.
  - intros i item Hitem. exists (mapItem resultIndex storageKey item).
    by rewrite mapQueryResult_lookup, Hitem.
  - intros a Ha. unfold mapQueryResult in Ha; simpl in Ha.
    apply list_elem_of_fmap in Ha as (item & -> & _). done.
Qed.

End Mapper.

(** * Properties of the admission filter *)

Section Admission.
Variable queryResult : RemoteQueryResult.

Lemma analysesToDownload_length :
  length (analysesToDownload queryResult)
  = Nat.min autoDownloadMaxCount
      (length (filter underMaxSize (analysisSummaries queryResult))).
Proof.
  unfold analysesToDownload, slice0. by rewrite length_fmap, length_take.
Qed.

Lemma analysesToDownload_kept :
  slice0 autoDownloadMaxCount
    (filter underMaxSize (analysisSummaries queryResult))
  `sublist_of` analysisSummaries queryResult.
Proof.
  unfold slice0. etrans; [apply sublist_take | apply sublist_filter].
Qed.

Lemma analysesToDownload_under (a : AnalysisSummary) :
  a ∈ slice0 autoDownloadMaxCount
        (filter underMaxSize (analysisSummaries queryResult)) →
  underMaxSize a.
Proof.
  unfold slice0. intros Ha.
  apply (sublist_subseteq _ _ (sublist_take _ _)) in Ha.
  by apply list_elem_of_filter in Ha as [? _].
Qed.

(** C4.  The requests that [autoDownloadRemoteQueryResults] hands to the
    download engine are [analysesToDownload].  With the caps 300 * 1024 bytes
    and 100 entries they are at most
    min(100, number of summaries smaller than 300 * 1024 bytes); they are the
    requests of a subsequence of the summaries, in the summaries' order; and
    the size each request shows is the decimal of a number strictly below
    300 * 1024. *)
Theorem autoDownload_admission :
  (∀ env w, ∃ res,
     autoDownloadRemoteQueryResults queryResult env w
     = (res, w, [DownloadAnalysesResults (analysesToDownload queryResult)]))
  ∧ autoDownloadMaxSize = 300 * 1024
  ∧ autoDownloadMaxCount = 100%nat
  ∧ (length (analysesToDownload queryResult)
     ≤ Nat.min 100
         (length (filter (λ a, (fileSizeInBytes a < 300 * 1024)%Z)
                    (analysisSummaries queryResult))))%nat
  ∧ (∃ kept : list AnalysisSummary,
       kept `sublist_of` analysisSummaries queryResult
       ∧ analysesToDownload queryResult = toDownloadRequest <$> kept)
  ∧ Forall (λ r : AnalysisDownloadRequest,
       ∃ a : AnalysisSummary,
         a ∈ analysisSummaries queryResult
         ∧ r = toDownloadRequest a
         ∧ req_fileSize r = String_of_number (fileSizeInBytes a)
         ∧ fileSizeInBytes a < 300 * 1024)
      (analysesToDownload queryResult).
Proof.
  split; [by eexists |]. split; [done |]. split; [done |]. split; [| split].
  - by rewrite analysesToDownload_length.
  - eexists. split; [apply analysesToDownload_kept | done].
  - apply Forall_forall. intros r Hr.
    unfold analysesToDownload in Hr.
    apply list_elem_of_fmap in Hr as (a & -> & Ha).
    exists a. split; [| split; [done | split; [done |]]].
    + by apply (sublist_subseteq _ _ analysesToDownload_kept).
    + by apply analysesToDownload_under in Ha.
Qed.

End Admission.

(** The scenario of three targets of 100000, 400000 and 50000 bytes: the
    first and the third pass the filter, in that order. *)
Example analysesToDownload_three_targets :
  req_nwo <$> analysesToDownload
                (mapQueryResult 0 Sample.index "find-xss-V1StGXR8")
  = ["octo/alpha"; "octo/gamma"]
  ∧ req_fileSize <$> analysesToDownload
                       (mapQueryResult 0 Sample.index "find-xss-V1StGXR8")
    = ["100000"; "50000"].
Proof. split; vm_compute; reflexivity. Qed.

(** C3, on the sample index: the first entry has a nonzero SARIF size, the
    third a SARIF size of zero. *)
Lemma mapQueryResult_kind_size_joint_witness :
  (∃ a : AnalysisSummary,
     analysisSummaries (mapQueryResult 0 Sample.index "key") !! 0%nat = Some a
     ∧ fileSizeInBytes a = 100000
     ∧ innerFilePath (downloadLink a) = "results.sarif")
  ∧ (∃ a : AnalysisSummary,
       analysisSummaries (mapQueryResult 0 Sample.index "key") !! 2%nat = Some a
       ∧ fileSizeInBytes a = 50000
       ∧ innerFilePath (downloadLink a) = "results.bqrs").
Proof.
  split.
  - destruct (mapQueryResult_kind_size_joint 0 Sample.index "key" 0%nat _ eq_refl)
      as (a & Ha & Hsarif & _).
    exists a. split; [exact Ha |]. apply (Hsarif 100000); [reflexivity | lia].
  - destruct (mapQueryResult_kind_size_joint 0 Sample.index "key" 2%nat _ eq_refl)
      as (a & Ha & _ & Hbqrs).
    exists a. split; [exact Ha |]. apply Hbqrs. right. reflexivity.
Defined.


(** * The monitoring workflow *)

Lemma alter_new_object {A} (f : A → A) (h : list A) (x : A) :
  alter f (length h) (h ++ [x]) = h ++ [f x].
Proof.
  replace (length h) with (length h + 0)%nat by lia.
  by rewrite alter_app_r.
Qed.

Lemma lookup_new_object {A} (h : list A) (x : A) :
  (h ++ [x]) !! length h = Some x.
Proof. by rewrite list_lookup_middle. Qed.

Lemma precedes_nil P Q : precedes P Q [].
Proof. intros i e Hi. by rewrite lookup_nil in Hi. Qed.

Lemma precedes_skip P Q e evs :
  ¬ Q e → precedes P Q evs → precedes P Q (e :: evs).
Proof.
  intros HnQ Hevs [| i] e' Hi HQ; simpl in Hi.
  - by simplify_eq.
  - destruct (Hevs i e' Hi HQ) as (j & e'' & Hj & Hl & HP).
    exists (S j), e''. split; [lia | done].
Qed.

Lemma precedes_found P Q e evs :
  P e → ¬ Q e → precedes P Q (e :: evs).
Proof.
  intros HP HnQ [| i] e' Hi HQ; simpl in Hi.
  - by simplify_eq.
  - exists 0%nat, e. split; [lia | done].
Qed.

Section Workflow.
Variables (this : RemoteQueriesManager) (env : Env) (query : RemoteQuery).

Local Abbreviation key := (storageKey env query).
Local Abbreviation queryJson := (queryJsonPath this env query).
Local Abbreviation queryResultJson := (queryResultJsonPath this env query).
Local Abbreviation polled := (polled this env query).
Local Abbreviation registered := (registeredItem this env query).
Local Abbreviation tracking := (tracking this env query).
Local Abbreviation pollingEvents := (pollingEvents this env query).
Local Abbreviation registrationEvents := (registrationEvents this env query).

Ltac unfold_run :=
  unfold monitorRemoteQuery, createQueryId, prepareStorageDirectory, storeFile,
    createTimestampFile, fs_writeFile, new_RemoteQueryHistoryItem, qhm_addQuery,
    Credentials_initialize, remoteQueriesMonitor_monitorQuery,
    getRemoteQueryIndex, showAndLogErrorMessage, qhm_refreshTreeView,
    assign, bind, ret, ask, await, void, sync, state;
  fold key; fold queryJson; fold queryResultJson;
  cbn beta iota.

Ltac run_to_poll Hpolled :=
  destruct Hpolled as [Hdir Hjson Hcred Hres];
  unfold_run; rewrite Hdir, Hjson, Hcred, Hres.

Ltac finish_run :=
  cbn; rewrite ?alter_new_object; reflexivity.

(** ** One equation per way through [monitorRemoteQuery] *)

Lemma monitorRemoteQuery_directory_rejected (w : World) e :
  ext_createTimestampFile env [storagePath this; key] = Throw e →
  monitorRemoteQuery this query env w
  = (Throw e, w, [CreateTimestampFile [storagePath this; key]]).
Proof. intros Hdir. unfold_run. rewrite Hdir. finish_run. Qed.

Lemma monitorRemoteQuery_query_json_rejected (w : World) e :
  ext_createTimestampFile env [storagePath this; key] = Normal tt →
  ext_writeFile env queryJson (QueryPayload query) = Throw e →
  monitorRemoteQuery this query env w
  = (Throw e, w,
     [CreateTimestampFile [storagePath this; key];
      WriteFile queryJson (QueryPayload query)]).
Proof. intros Hdir Hjson. unfold_run. rewrite Hdir, Hjson. finish_run. Qed.

Lemma monitorRemoteQuery_credentials_rejected (w : World) e :
  ext_createTimestampFile env [storagePath this; key] = Normal tt →
  ext_writeFile env queryJson (QueryPayload query) = Normal tt →
  ext_Credentials_initialize env = Throw e →
  monitorRemoteQuery this query env w
  = (Throw e, tracking w registered,
     registrationEvents w ++ [InitializeCredentials]).
Proof.
  intros Hdir Hjson Hcred. unfold_run. rewrite Hdir, Hjson, Hcred. finish_run.
Qed.

Lemma monitorRemoteQuery_poll_rejected (w : World) e :
  ext_createTimestampFile env [storagePath this; key] = Normal tt →
  ext_writeFile env queryJson (QueryPayload query) = Normal tt →
  (∃ credentials, ext_Credentials_initialize env = Normal credentials) →
  ext_monitorQuery env query = Throw e →
  monitorRemoteQuery this query env w
  = (Throw e, tracking w registered, pollingEvents w).
Proof.
  intros Hdir Hjson [credentials Hcred] Hres. unfold_run.
  rewrite Hdir, Hjson, Hcred, Hres. finish_run.
Qed.

Lemma monitorRemoteQuery_Cancelled (w : World) credentials result :
  polled credentials result →
  wf_status result = Cancelled →
  monitorRemoteQuery this query env w
  = let w' := tracking w (failedItem this env query (Some "Cancelled")) in
    let evs := pollingEvents w ++ [ShowAndLogErrorMessage cancelledMessage] in
    match ext_showAndLogErrorMessage env cancelledMessage with
    | Normal _ => (Normal tt, w', evs ++ [RefreshTreeView])
    | Throw e => (Throw e, w', evs)
    end.
Proof.
  intros Hpolled Hstatus. run_to_poll Hpolled. rewrite Hstatus.
  unfold cancelledMessage.
  destruct (ext_showAndLogErrorMessage env _); finish_run.
Qed.

Lemma monitorRemoteQuery_CompletedUnsuccessfully (w : World) credentials result :
  polled credentials result →
  wf_status result = CompletedUnsuccessfully →
  monitorRemoteQuery this query env w
  = let w' := tracking w (failedItem this env query (wf_error result)) in
    let evs := pollingEvents w ++ [ShowAndLogErrorMessage (failedMessage result)] in
    match ext_showAndLogErrorMessage env (failedMessage result) with
    | Normal _ => (Normal tt, w', evs ++ [RefreshTreeView])
    | Throw e => (Throw e, w', evs)
    end.
Proof.
  intros Hpolled Hstatus. run_to_poll Hpolled. rewrite Hstatus.
  unfold failedMessage.
  destruct (ext_showAndLogErrorMessage env _); finish_run.
Qed.

Lemma monitorRemoteQuery_InProgress (w : World) credentials result :
  polled credentials result →
  wf_status result = InProgress →
  monitorRemoteQuery this query env w
  = let w' := tracking w registered in
    let evs := pollingEvents w ++ [ShowAndLogErrorMessage unexpectedMessage] in
    match ext_showAndLogErrorMessage env unexpectedMessage with
    | Normal _ => (Normal tt, w', evs ++ [RefreshTreeView])
    | Throw e => (Throw e, w', evs)
    end.
Proof.
  intros Hpolled Hstatus. run_to_poll Hpolled. rewrite Hstatus.
  unfold unexpectedMessage. change (status_literal InProgress) with "InProgress".
  cbn [String.append].
  destruct (ext_showAndLogErrorMessage env _); finish_run.
Qed.

Lemma monitorRemoteQuery_index_missing (w : World) credentials result :
  polled credentials result →
  wf_status result = CompletedSuccessfully →
  ext_getRemoteQueryIndex env credentials query = Normal None →
  monitorRemoteQuery this query env w
  = (Normal tt,
     tracking w registered,
     pollingEvents w ++ [GetRemoteQueryIndex credentials query;
                         ShowAndLogErrorMessage (retrievalMessage query)]).
Proof.
  intros Hpolled Hstatus Hindex. run_to_poll Hpolled. rewrite Hstatus.
  cbn beta iota. rewrite Hindex. finish_run.
Qed.

Lemma monitorRemoteQuery_index_rejected (w : World) credentials result e :
  polled credentials result →
  wf_status result = CompletedSuccessfully →
  ext_getRemoteQueryIndex env credentials query = Throw e →
  monitorRemoteQuery this query env w
  = (Throw e,
     tracking w registered,
     pollingEvents w ++ [GetRemoteQueryIndex credentials query]).
Proof.
  intros Hpolled Hstatus Hindex. run_to_poll Hpolled. rewrite Hstatus.
  cbn beta iota. rewrite Hindex. finish_run.
Qed.

Lemma monitorRemoteQuery_index_found (w : World) credentials result resultIndex :
  polled credentials result →
  wf_status result = CompletedSuccessfully →
  ext_getRemoteQueryIndex env credentials query = Normal (Some resultIndex) →
  monitorRemoteQuery this query env w
  = let queryResult := mapQueryResult (ext_now env) resultIndex key in
    let w' := tracking w (completedItem this env query) in
    let evs := pollingEvents w
                 ++ [GetRemoteQueryIndex credentials query;
                     WriteFile queryResultJson (QueryResultPayload queryResult)] in
    match ext_writeFile env queryResultJson (QueryResultPayload queryResult) with
    | Normal _ =>
        (Normal tt,
         {| heap := heap w'; qhm_entries := qhm_entries w';
            files := <[queryResultJson := QueryResultPayload queryResult]> (files w') |},
         evs ++ [ExecuteCommand autoDownloadCommand (QueryResultPayload queryResult);
                 askToOpenResults query queryResult;
                 RefreshTreeView])
    | Throw e => (Throw e, w', evs)
    end.
Proof.
  intros Hpolled Hstatus Hindex. run_to_poll Hpolled. rewrite Hstatus.
  cbn beta iota. rewrite Hindex. cbn beta iota zeta.
  destruct (ext_writeFile env queryResultJson _); finish_run.
Qed.

Ltac not_that_kind := unfold not; cbn; by (intros [] || tauto).

Ltac event_member :=
  cbn [pollingEvents registrationEvents app];
  rewrite ?elem_of_app, !elem_of_cons; naive_solver.

Ltac event_absent :=
  cbn [pollingEvents registrationEvents app];
  rewrite !not_elem_of_cons; repeat split;
  first [discriminate | apply not_elem_of_nil].

Ltac order_events :=
  cbn [pollingEvents registrationEvents app];
  repeat first
    [ apply precedes_nil
    | apply precedes_found;
        [ by (unfold jobPersisted, summaryPersisted; cbn; eauto 10)
        | not_that_kind ]
    | apply precedes_skip; [ not_that_kind |] ].

(** ** Refresh of the history view *)

(** Every run that completes normally ends with the refresh of the history
    view, except after a successful outcome whose index is missing. *)
Lemma monitorRemoteQuery_refresh_last (w : World) credentials result :
  polled credentials result →
  (wf_status result = CompletedSuccessfully →
   ∃ resultIndex,
     ext_getRemoteQueryIndex env credentials query = Normal (Some resultIndex)) →
  let '(res, _, evs) := monitorRemoteQuery this query env w in
  res = Normal tt → last evs = Some RefreshTreeView.
Proof.
  intros Hpolled Hindex. destruct (wf_status result) eqn:Hstatus.
  - rewrite (monitorRemoteQuery_InProgress w _ _ Hpolled Hstatus). cbn zeta.
    by destruct (ext_showAndLogErrorMessage env _).
  - destruct (Hindex eq_refl) as [resultIndex Hfound].
    rewrite (monitorRemoteQuery_index_found w _ _ _ Hpolled Hstatus Hfound).
    cbn zeta. by destruct (ext_writeFile env _ _).
  - rewrite (monitorRemoteQuery_CompletedUnsuccessfully w _ _ Hpolled Hstatus).
    cbn zeta. by destruct (ext_showAndLogErrorMessage env _).
  - rewrite (monitorRemoteQuery_Cancelled w _ _ Hpolled Hstatus). cbn zeta.
    by destruct (ext_showAndLogErrorMessage env _).
Qed.

(** C1.  The refresh of the history view is not executed on every way through
    [monitorRemoteQuery]: after the outcome [CompletedSuccessfully], when
    index retrieval answers nothing, the operation returns normally, the
    refresh is not among its events, and the last event is the error
    report. *)
Theorem monitorRemoteQuery_index_missing_no_refresh (w : World) credentials result :
  polled credentials result →
  wf_status result = CompletedSuccessfully →
  ext_getRemoteQueryIndex env credentials query = Normal None →
  let '(res, _, evs) := monitorRemoteQuery this query env w in
  res = Normal tt
  ∧ (RefreshTreeView ∉ evs)
  ∧ last evs = Some (ShowAndLogErrorMessage (retrievalMessage query)).
Proof.
  intros Hpolled Hstatus Hindex.
  rewrite (monitorRemoteQuery_index_missing w _ _ Hpolled Hstatus Hindex).
  split; [done |]. split; [| done].
  event_absent.
Qed.

(** ** Classification of the outcome *)

(** C2.  After the outcome [CompletedSuccessfully], when index retrieval
    answers nothing: the tracked entry is still as it was constructed (status
    [InProgress], not completed, no failure reason), the retrieval error is
    reported, no result summary is written (the only file written is
    [query.json]), and no command is triggered. *)
Theorem monitorRemoteQuery_index_missing_leaves_entry (w : World) credentials result :
  polled credentials result →
  wf_status result = CompletedSuccessfully →
  ext_getRemoteQueryIndex env credentials query = Normal None →
  let '(_, w', evs) := monitorRemoteQuery this query env w in
  length (heap w) ∈ qhm_entries w'
  ∧ (∃ item, heap w' !! length (heap w) = Some item
       ∧ item = registered
       ∧ status item = QueryStatus.InProgress
       ∧ completed item = false)
  ∧ ShowAndLogErrorMessage (retrievalMessage query) ∈ evs
  ∧ Forall (λ e, ¬ writesSummary e) evs
  ∧ files w' = <[queryJson := QueryPayload query]> (files w)
  ∧ Forall (λ e, ¬ commandTriggered e ∧ ¬ autoDownloadTriggered e) evs.
Proof.
  intros Hpolled Hstatus Hindex.
  rewrite (monitorRemoteQuery_index_missing w _ _ Hpolled Hstatus Hindex).
  cbn [pollingEvents registrationEvents app tracking heap qhm_entries files].
  split; [event_member |]. split.
  { exists registered. by rewrite lookup_new_object. }
  split; [event_member |].
  split; [repeat constructor; not_that_kind |].
  split; [done |].
  repeat constructor; not_that_kind.
Qed.

(** C6.  After the outcome [Cancelled] the tracked entry has status [Failed]
    and the failure reason "Cancelled", its completed flag is as constructed,
    the cancellation message is reported, and no result summary is written
    (the only file written is [query.json]). *)
Theorem monitorRemoteQuery_Cancelled_outcome (w : World) credentials result :
  polled credentials result →
  wf_status result = Cancelled →
  let '(_, w', evs) := monitorRemoteQuery this query env w in
  length (heap w) ∈ qhm_entries w'
  ∧ (∃ item, heap w' !! length (heap w) = Some item
       ∧ status item = QueryStatus.Failed
       ∧ failureReason item = Some "Cancelled")
  ∧ ShowAndLogErrorMessage "Remote query monitoring was cancelled" ∈ evs
  ∧ Forall (λ e, ¬ writesSummary e) evs
  ∧ files w' = <[queryJson := QueryPayload query]> (files w).
Proof.
  intros Hpolled Hstatus.
  rewrite (monitorRemoteQuery_Cancelled w _ _ Hpolled Hstatus). cbn zeta.
  destruct (ext_showAndLogErrorMessage env _);
    cbn [pollingEvents registrationEvents app tracking heap qhm_entries files];
    (split; [event_member |]);
    (split; [eexists; by rewrite lookup_new_object |]);
    (split; [unfold cancelledMessage; event_member |]);
    (split; [repeat constructor; not_that_kind | done]).
Qed.

(** C10.  After the outcome [InProgress] the only thing done beyond the
    registration and the poll is the report "Unexpected status: InProgress"
    (followed by the refresh of the history view when the report fulfils):
    the tracked entry is as it was constructed, so its status, completed flag
    and failure reason are unchanged; no result summary is written and no
    command is triggered. *)
Theorem monitorRemoteQuery_InProgress_only_reports (w : World) credentials result :
  polled credentials result →
  wf_status result = InProgress →
  let '(_, w', evs) := monitorRemoteQuery this query env w in
  (∃ rest, evs = pollingEvents w
                   ++ ShowAndLogErrorMessage "Unexpected status: InProgress" :: rest
           ∧ (rest = [] ∨ rest = [RefreshTreeView]))
  ∧ w' = tracking w registered
  ∧ (∃ item, heap w' !! length (heap w) = Some item
       ∧ status item = status registered
       ∧ completed item = completed registered
       ∧ failureReason item = failureReason registered)
  ∧ Forall (λ e, ¬ writesSummary e) evs
  ∧ Forall (λ e, ¬ commandTriggered e ∧ ¬ autoDownloadTriggered e) evs.
Proof.
  intros Hpolled Hstatus.
  rewrite (monitorRemoteQuery_InProgress w _ _ Hpolled Hstatus). cbn zeta.
  destruct (ext_showAndLogErrorMessage env _);
    (split; [eexists; split;
               [cbn [pollingEvents registrationEvents app]; reflexivity
               | by eauto] |]);
    (split; [done |]);
    cbn [pollingEvents registrationEvents app tracking heap qhm_entries files];
    (split; [eexists; by rewrite lookup_new_object |]);
    split; repeat constructor; not_that_kind.
Qed.

(** C9.  Once polling has answered, the completed flag of the tracked entry
    is true exactly when the outcome was [CompletedSuccessfully] and the index
    was retrieved, which is exactly when a result summary was produced and
    handed to storage; after [CompletedUnsuccessfully] and [Cancelled] the
    status is [Failed] and the completed flag is as constructed (false). *)
Theorem monitorRemoteQuery_completed_iff_summary (w : World) credentials result :
  polled credentials result →
  let '(_, w', evs) := monitorRemoteQuery this query env w in
  ∃ item, heap w' !! length (heap w) = Some item
    ∧ (completed item = true ↔
         wf_status result = CompletedSuccessfully
         ∧ ∃ resultIndex,
             ext_getRemoteQueryIndex env credentials query = Normal (Some resultIndex))
    ∧ (completed item = true ↔
         ∃ summary, WriteFile queryResultJson (QueryResultPayload summary) ∈ evs)
    ∧ (wf_status result = CompletedUnsuccessfully ∨ wf_status result = Cancelled →
         status item = QueryStatus.Failed
         ∧ completed item = completed registered
         ∧ completed item = false).
Proof.
  intros Hpolled.
  assert (Hno : ∀ summary (evs : list Event),
            Forall (λ e, ¬ writesSummary e) evs →
            WriteFile queryResultJson (QueryResultPayload summary) ∈ evs → False).
  { intros summary evs Hall Hin. rewrite Forall_forall in Hall.
    by apply (Hall _ Hin). }
  destruct (wf_status result) eqn:Hstatus.
  - rewrite (monitorRemoteQuery_InProgress w _ _ Hpolled Hstatus). cbn zeta.
    destruct (ext_showAndLogErrorMessage env _);
      cbn [pollingEvents registrationEvents app tracking heap];
      (eexists; split; [apply lookup_new_object |]); cbn;
      (split; [split; [done | by intros [? _]] |]);
      (split; [| by intros [? | ?]]);
      (split; [done | intros [summary Hin]; exfalso; revert Hin;
                      apply Hno; repeat constructor; not_that_kind]).
  - destruct (ext_getRemoteQueryIndex env credentials query)
      as [[resultIndex |] | e] eqn:Hindex.
    + rewrite (monitorRemoteQuery_index_found w _ _ _ Hpolled Hstatus Hindex).
      cbn zeta.
      destruct (ext_writeFile env queryResultJson _);
        cbn [pollingEvents registrationEvents app tracking heap];
        (eexists; split; [apply lookup_new_object |]); cbn;
        (split; [split; [by eauto | done] |]);
        (split; [| by intros [? | ?]]);
        (split; [intros _; eexists; event_member | done]).
    + rewrite (monitorRemoteQuery_index_missing w _ _ Hpolled Hstatus Hindex).
      cbn [pollingEvents registrationEvents app tracking heap].
      eexists; split; [apply lookup_new_object |]; cbn.
      split; [split; [done | by intros [_ [? ?]]] |].
      split; [| by intros [? | ?]].
      split; [done | intros [summary Hin]; exfalso; revert Hin;
                     apply Hno; repeat constructor; not_that_kind].
    + rewrite (monitorRemoteQuery_index_rejected w _ _ _ Hpolled Hstatus Hindex).
      cbn [pollingEvents registrationEvents app tracking heap].
      eexists; split; [apply lookup_new_object |]; cbn.
      split; [split; [done | by intros [_ [? ?]]] |].
      split; [| by intros [? | ?]].
      split; [done | intros [summary Hin]; exfalso; revert Hin;
                     apply Hno; repeat constructor; not_that_kind].
  - rewrite (monitorRemoteQuery_CompletedUnsuccessfully w _ _ Hpolled Hstatus).
    cbn zeta.
    destruct (ext_showAndLogErrorMessage env _);
      cbn [pollingEvents registrationEvents app tracking heap];
      (eexists; split; [apply lookup_new_object |]); cbn;
      (split; [split; [done | by intros [? _]] |]);
      (split; [| done]);
      (split; [done | intros [summary Hin]; exfalso; revert Hin;
                      apply Hno; repeat constructor; not_that_kind]).
  - rewrite (monitorRemoteQuery_Cancelled w _ _ Hpolled Hstatus). cbn zeta.
    destruct (ext_showAndLogErrorMessage env _);
      cbn [pollingEvents registrationEvents app tracking heap];
      (eexists; split; [apply lookup_new_object |]); cbn;
      (split; [split; [done | by intros [? _]] |]);
      (split; [| done]);
      (split; [done | intros [summary Hin]; exfalso; revert Hin;
                      apply Hno; repeat constructor; not_that_kind]).
Qed.

(** ** Ordering of the side effects *)

Ltac auto_download_file :=
  let arg := fresh "arg" in
  let Hin := fresh "Hin" in
  intros arg Hin; revert Hin;
  cbn [pollingEvents registrationEvents app tracking heap qhm_entries files];
  rewrite !elem_of_cons, elem_of_nil;
  intros Hin; decompose [or] Hin; try discriminate; try done;
  simplify_eq; by rewrite lookup_insert_eq.

Ltac ordered :=
  cbn zeta; cbn [pollingEvents registrationEvents app];
  split; [order_events |]; split; [order_events |]; split; [order_events |];
  split; [auto_download_file |];
  intros ? ? ? [? ? ? ?] ? ? ?; congruence.

(** C7.  In every run of [monitorRemoteQuery], whatever the collaborators
    answer: the history registration comes after the successful write of the
    job descriptor; the poll comes after the history registration; the
    auto-download command comes after the successful write of the result
    summary, what was written being the summary mapped from the retrieved
    index, and the command's argument being the content of the summary
    file.  On the way where every step succeeds all of these effects occur,
    in this order. *)
Theorem monitorRemoteQuery_ordering (w : World) :
  let '(_, w', evs) := monitorRemoteQuery this query env w in
  precedes (jobPersisted this env query) historyRegistration evs
  ∧ precedes historyRegistration pollingBegins evs
  ∧ precedes (summaryPersisted this env query) autoDownloadTriggered evs
  ∧ (∀ arg, ExecuteCommand autoDownloadCommand arg ∈ evs →
       files w' !! queryResultJson = Some arg)
  ∧ (∀ credentials result resultIndex,
       polled credentials result →
       wf_status result = CompletedSuccessfully →
       ext_getRemoteQueryIndex env credentials query = Normal (Some resultIndex) →
       ext_writeFile env queryResultJson
         (QueryResultPayload (mapQueryResult (ext_now env) resultIndex key))
       = Normal tt →
       evs = [CreateTimestampFile [storagePath this; key];
              WriteFile queryJson (QueryPayload query);
              AddQuery (length (heap w));
              InitializeCredentials;
              MonitorQuery query;
              GetRemoteQueryIndex credentials query;
              WriteFile queryResultJson
                (QueryResultPayload (mapQueryResult (ext_now env) resultIndex key));
              ExecuteCommand autoDownloadCommand
                (QueryResultPayload (mapQueryResult (ext_now env) resultIndex key));
              askToOpenResults query (mapQueryResult (ext_now env) resultIndex key);
              RefreshTreeView]).
Proof.
  destruct (ext_createTimestampFile env [storagePath this; key])
    as [[] | e] eqn:Hdir;
    [| rewrite (monitorRemoteQuery_directory_rejected w _ Hdir); ordered].
  destruct (ext_writeFile env queryJson (QueryPayload query))
    as [[] | e] eqn:Hjson;
    [| rewrite (monitorRemoteQuery_query_json_rejected w _ Hdir Hjson); ordered].
  destruct (ext_Credentials_initialize env) as [credentials | e] eqn:Hcred;
    [| rewrite (monitorRemoteQuery_credentials_rejected w _ Hdir Hjson Hcred);
       ordered].
  destruct (ext_monitorQuery env query) as [result | e] eqn:Hres;
    [| rewrite (monitorRemoteQuery_poll_rejected w _ Hdir Hjson
                  (ex_intro _ _ Hcred) Hres); ordered].
  assert (Hpolled : polled credentials result) by done.
  destruct (wf_status result) eqn:Hstatus.
  - rewrite (monitorRemoteQuery_InProgress w _ _ Hpolled Hstatus). cbn zeta.
    destruct (ext_showAndLogErrorMessage env _); ordered.
  - destruct (ext_getRemoteQueryIndex env credentials query)
      as [[resultIndex |] | e] eqn:Hindex.
    + rewrite (monitorRemoteQuery_index_found w _ _ _ Hpolled Hstatus Hindex).
      cbn zeta.
      destruct (ext_writeFile env queryResultJson _) as [[] | e] eqn:Hwrite;
        ordered.
    + rewrite (monitorRemoteQuery_index_missing w _ _ Hpolled Hstatus Hindex).
      ordered.
    + rewrite (monitorRemoteQuery_index_rejected w _ _ _ Hpolled Hstatus Hindex).
      ordered.
  - rewrite (monitorRemoteQuery_CompletedUnsuccessfully w _ _ Hpolled Hstatus).
    cbn zeta. destruct (ext_showAndLogErrorMessage env _); ordered.
  - rewrite (monitorRemoteQuery_Cancelled w _ _ Hpolled Hstatus). cbn zeta.
    destruct (ext_showAndLogErrorMessage env _); ordered.
Qed.

End Workflow.

(** * Submission *)

Section Submit.
Variables (env : Env) (uri : option Uri).

Lemma runRemoteQuery_run (w : World) credentials submission :
  ext_Credentials_initialize env = Normal credentials →
  ext_runRemoteQuery env credentials (submissionTarget env uri) false
  = Normal submission →
  runRemoteQuery uri env w
  = (Normal tt, w,
     [InitializeCredentials;
      RunRemoteQuery credentials (submissionTarget env uri) false]
     ++ match submittedJob submission with
        | Some job => [ExecuteCommand monitorCommand (QueryPayload job)]
        | None => []
        end).
Proof.
  intros Hcred Hsubmit.
  unfold runRemoteQuery, Credentials_initialize, run_remote_query_runRemoteQuery,
    bind, ret, ask, await, void.
  fold (submissionTarget env uri). cbn beta iota.
  rewrite Hcred, Hsubmit.
  by destruct submission as [[[job |]] |].
Qed.

(** C8.  When the credentials are obtained and the submission collaborator
    fulfils, [runRemoteQuery] returns normally with the world as it was and
    without any effect of monitoring among its events.  If the submission
    yields no job (nothing at all, or an object without a query) no command
    is triggered; if it yields a job, the last thing done is to trigger the
    command "codeQL.monitorRemoteQuery" on that job, the promise of which is
    discarded. *)
Theorem runRemoteQuery_follow_up (w : World) credentials submission :
  ext_Credentials_initialize env = Normal credentials →
  ext_runRemoteQuery env credentials (submissionTarget env uri) false
  = Normal submission →
  let '(res, w', evs) := runRemoteQuery uri env w in
  res = Normal tt
  ∧ w' = w
  ∧ Forall (λ e, ¬ monitoringEffect e) evs
  ∧ (submittedJob submission = None → Forall (λ e, ¬ commandTriggered e) evs)
  ∧ (∀ job, submittedJob submission = Some job →
       evs = [InitializeCredentials;
              RunRemoteQuery credentials (submissionTarget env uri) false;
              ExecuteCommand "codeQL.monitorRemoteQuery" (QueryPayload job)]).
Proof.
  intros Hcred Hsubmit. rewrite (runRemoteQuery_run w _ _ Hcred Hsubmit).
  split; [done |]. split; [done |].
  destruct (submittedJob submission) as [job |]; cbn [app].
  - split; [repeat constructor; by intros [] |].
    split; [done |]. by intros ? [= <-].
  - split; [repeat constructor; by intros [] |].
    split; [| done]. intros _. repeat constructor; by intros [].
Qed.

End Submit.

(** * Auto-download *)

Lemma autoDownloadRemoteQueryResults_run (env : Env) (w : World)
    (queryResult : RemoteQueryResult) :
  autoDownloadRemoteQueryResults queryResult env w
  = (ext_downloadAnalysesResults env (analysesToDownload queryResult), w,
     [DownloadAnalysesResults (analysesToDownload queryResult)]).
Proof. reflexivity. Qed.

(** * The theorems on the sample inputs *)

Module OnSample.

Import Sample.

Lemma polled_sample (s : RemoteQueryWorkflowStatus)
    (idx : option RemoteQueryResultIndex) :
  polled manager (answering s idx) job credentials (outcome s).
Proof. by split. Defined.

(** C1, run on the failing input: a successful outcome whose index is
    missing. *)
Lemma monitorRemoteQuery_index_missing_no_refresh_witness :
  let '(res, _, evs) :=
    monitorRemoteQuery manager job (answering CompletedSuccessfully None) world in
  res = Normal tt
  ∧ (RefreshTreeView ∉ evs)
  ∧ last evs
    = Some (ShowAndLogErrorMessage
              "There was an issue retrieving the result for the query find-xss").
Proof.
  exact (monitorRemoteQuery_index_missing_no_refresh
           manager (answering CompletedSuccessfully None) job world
           credentials (outcome CompletedSuccessfully)
           (polled_sample _ _) eq_refl eq_refl).
Defined.

Lemma monitorRemoteQuery_index_missing_leaves_entry_witness :
  let '(_, w', evs) :=
    monitorRemoteQuery manager job (answering CompletedSuccessfully None) world in
  1%nat ∈ qhm_entries w'
  ∧ (∃ item, heap w' !! 1%nat = Some item
       ∧ item = registeredItem manager (answering CompletedSuccessfully None) job
       ∧ status item = QueryStatus.InProgress
       ∧ completed item = false)
  ∧ ShowAndLogErrorMessage
      "There was an issue retrieving the result for the query find-xss" ∈ evs
  ∧ Forall (λ e, ¬ writesSummary e) evs
  ∧ files w'
    = <[["/storage"; "find-xss-V1StGXR8"; "query.json"] := QueryPayload job]>
        (files world)
  ∧ Forall (λ e, ¬ commandTriggered e ∧ ¬ autoDownloadTriggered e) evs.
Proof.
  exact (monitorRemoteQuery_index_missing_leaves_entry
           manager (answering CompletedSuccessfully None) job world
           credentials (outcome CompletedSuccessfully)
           (polled_sample _ _) eq_refl eq_refl).
Defined.

Lemma monitorRemoteQuery_Cancelled_outcome_witness :
  let '(_, w', evs) :=
    monitorRemoteQuery manager job (answering Cancelled None) world in
  1%nat ∈ qhm_entries w'
  ∧ (∃ item, heap w' !! 1%nat = Some item
       ∧ status item = QueryStatus.Failed
       ∧ failureReason item = Some "Cancelled")
  ∧ ShowAndLogErrorMessage "Remote query monitoring was cancelled" ∈ evs
  ∧ Forall (λ e, ¬ writesSummary e) evs
  ∧ files w'
    = <[["/storage"; "find-xss-V1StGXR8"; "query.json"] := QueryPayload job]>
        (files world).
Proof.
  exact (monitorRemoteQuery_Cancelled_outcome
           manager (answering Cancelled None) job world
           credentials (outcome Cancelled) (polled_sample _ _) eq_refl).
Defined.

Lemma monitorRemoteQuery_InProgress_only_reports_witness :
  let '(_, w', evs) :=
    monitorRemoteQuery manager job (answering InProgress None) world in
  (∃ rest,
     evs = pollingEvents manager (answering InProgress None) job world
             ++ ShowAndLogErrorMessage "Unexpected status: InProgress" :: rest
     ∧ (rest = [] ∨ rest = [RefreshTreeView]))
  ∧ w' = tracking manager (answering InProgress None) job world
           (registeredItem manager (answering InProgress None) job)
  ∧ (∃ item, heap w' !! 1%nat = Some item
       ∧ status item = QueryStatus.InProgress
       ∧ completed item = false
       ∧ failureReason item = None)
  ∧ Forall (λ e, ¬ writesSummary e) evs
  ∧ Forall (λ e, ¬ commandTriggered e ∧ ¬ autoDownloadTriggered e) evs.
Proof.
  exact (monitorRemoteQuery_InProgress_only_reports
           manager (answering InProgress None) job world
           credentials (outcome InProgress) (polled_sample _ _) eq_refl).
Defined.

(** C9 on a run that produces a summary and on one that fails. *)
Lemma monitorRemoteQuery_completed_iff_summary_witness :
  (let '(_, w', evs) :=
     monitorRemoteQuery manager job
       (answering CompletedSuccessfully (Some index)) world in
   ∃ item, heap w' !! 1%nat = Some item
     ∧ completed item = true
     ∧ ∃ summary,
         WriteFile ["/storage"; "find-xss-V1StGXR8"; "query-result.json"]
           (QueryResultPayload summary) ∈ evs)
  ∧ (let '(_, w', evs) :=
       monitorRemoteQuery manager job
         (answering CompletedUnsuccessfully None) world in
     ∃ item, heap w' !! 1%nat = Some item
       ∧ status item = QueryStatus.Failed
       ∧ completed item = false).
Proof.
  split.
  - pose proof (monitorRemoteQuery_completed_iff_summary
                  manager (answering CompletedSuccessfully (Some index)) job world
                  credentials (outcome CompletedSuccessfully)
                  (polled_sample _ _)) as Hrun.
    destruct (monitorRemoteQuery manager job _ world) as [[res w'] evs].
    destruct Hrun as (item & Hitem & Hcompleted & Hsummary & _).
    assert (Hflag : completed item = true).
    { apply Hcompleted. split; [reflexivity | by exists index]. }
    exists item. split; [exact Hitem |]. split; [exact Hflag |].
    by apply Hsummary.
  - pose proof (monitorRemoteQuery_completed_iff_summary
                  manager (answering CompletedUnsuccessfully None) job world
                  credentials (outcome CompletedUnsuccessfully)
                  (polled_sample _ _)) as Hrun.
    destruct (monitorRemoteQuery manager job _ world) as [[res w'] evs].
    destruct Hrun as (item & Hitem & _ & _ & Hfailed).
    destruct (Hfailed (or_introl eq_refl)) as (Hstatus & _ & Hflag).
    by exists item.
Defined.

(** C7 on the run where every step succeeds. *)
Lemma monitorRemoteQuery_ordering_witness :
  let '(_, _, evs) :=
    monitorRemoteQuery manager job
      (answering CompletedSuccessfully (Some index)) world in
  precedes historyRegistration pollingBegins evs
  ∧ precedes
      (summaryPersisted manager (answering CompletedSuccessfully (Some index)) job)
      autoDownloadTriggered evs
  ∧ length evs = 10%nat
  ∧ evs !! 1%nat
    = Some (WriteFile ["/storage"; "find-xss-V1StGXR8"; "query.json"]
              (QueryPayload job))
  ∧ evs !! 2%nat = Some (AddQuery 1)
  ∧ evs !! 4%nat = Some (MonitorQuery job).
Proof.
  pose proof (monitorRemoteQuery_ordering
                manager (answering CompletedSuccessfully (Some index)) job world)
    as Hrun.
  destruct (monitorRemoteQuery manager job _ world) as [[res w'] evs].
  destruct Hrun as (_ & Hpoll & Hsummary & _ & Hall).
  split; [exact Hpoll |]. split; [exact Hsummary |].
  rewrite (Hall credentials (outcome CompletedSuccessfully) index
             (polled_sample _ _) eq_refl eq_refl eq_refl).
  repeat split.
Defined.

(** C8 with a submission that yields the sample job, and with one that
    yields nothing. *)
Lemma runRemoteQuery_follow_up_witness :
  (let '(res, w', evs) :=
     runRemoteQuery None
       (Sample.env InProgress None (Some {| submitted_query := Some job |})) world in
   res = Normal tt ∧ w' = world
   ∧ last evs
     = Some (ExecuteCommand "codeQL.monitorRemoteQuery" (QueryPayload job)))
  ∧ (let '(res, w', evs) :=
       runRemoteQuery None (Sample.env InProgress None None) world in
     res = Normal tt ∧ w' = world ∧ Forall (λ e, ¬ commandTriggered e) evs).
Proof.
  split.
  - pose proof (runRemoteQuery_follow_up
                  (Sample.env InProgress None (Some {| submitted_query := Some job |}))
                  None world credentials _ eq_refl eq_refl) as Hrun.
    destruct (runRemoteQuery None _ world) as [[res w'] evs].
    destruct Hrun as (Hres & Hworld & _ & _ & Hjob).
    split; [exact Hres |]. split; [exact Hworld |].
    by rewrite (Hjob job eq_refl).
  - pose proof (runRemoteQuery_follow_up (Sample.env InProgress None None)
                  None world credentials _ eq_refl eq_refl) as Hrun.
    destruct (runRemoteQuery None _ world) as [[res w'] evs].
    destruct Hrun as (Hres & Hworld & _ & Hnone & _).
    split; [exact Hres |]. split; [exact Hworld |]. by apply Hnone.
Defined.

(** ** Three runs, evaluated *)

Example run_index_missing :
  monitorRemoteQuery manager job (answering CompletedSuccessfully None) world
  = (Normal tt,
     {| heap := heap world
                  ++ [RemoteQueryHistoryItem_constructor
                        "find-xss" "find-xss-V1StGXR8" "/storage"];
        qhm_entries := [0%nat; 1%nat];
        files := {[ ["/storage"; "find-xss-V1StGXR8"; "query.json"]
                    := QueryPayload job ]} |},
     [CreateTimestampFile ["/storage"; "find-xss-V1StGXR8"];
      WriteFile ["/storage"; "find-xss-V1StGXR8"; "query.json"] (QueryPayload job);
      AddQuery 1;
      InitializeCredentials;
      MonitorQuery job;
      GetRemoteQueryIndex credentials job;
      ShowAndLogErrorMessage
        "There was an issue retrieving the result for the query find-xss"]).
Proof. vm_compute. reflexivity. Qed.

Example run_failed :
  let '(res, w', evs) :=
    monitorRemoteQuery manager job (answering CompletedUnsuccessfully None) world in
  res = Normal tt
  ∧ heap w' !! 1%nat
    = Some {| label := "find-xss"; hi_queryId := "find-xss-V1StGXR8";
              hi_storagePath := "/storage"; failureReason := Some "boom";
              status := QueryStatus.Failed; completed := false |}
  ∧ drop 5 evs
    = [ShowAndLogErrorMessage "Remote query execution failed. Error: boom";
       RefreshTreeView].
Proof. vm_compute. done. Qed.

Example run_successful :
  let '(res, w', evs) :=
    monitorRemoteQuery manager job
      (answering CompletedSuccessfully (Some index)) world in
  let summary := mapQueryResult 1650000000000 index "find-xss-V1StGXR8" in
  res = Normal tt
  ∧ heap w' !! 1%nat
    = Some {| label := "find-xss"; hi_queryId := "find-xss-V1StGXR8";
              hi_storagePath := "/storage"; failureReason := None;
              status := QueryStatus.Completed; completed := true |}
  ∧ files w' !! ["/storage"; "find-xss-V1StGXR8"; "query-result.json"]
    = Some (QueryResultPayload summary)
  ∧ drop 5 evs
    = [GetRemoteQueryIndex credentials job;
       WriteFile ["/storage"; "find-xss-V1StGXR8"; "query-result.json"]
         (QueryResultPayload summary);
       ExecuteCommand "codeQL.autoDownloadRemoteQueryResults"
         (QueryResultPayload summary);
       ShowInformationMessageWithAction
         ("Query " +:+ dquote +:+ "find-xss" +:+ dquote
            +:+ " run on 3 repositories and returned 7 results") "View";
       RefreshTreeView].
Proof. vm_compute. done. Qed.

End OnSample.

(** * Every way through monitorRemoteQuery *)

Section Ways.
Variables (this : RemoteQueriesManager) (env : Env) (query : RemoteQuery).

Local Abbreviation key := (storageKey env query).
Local Abbreviation queryJson := (queryJsonPath this env query).
Local Abbreviation queryResultJson := (queryResultJsonPath this env query).
Local Abbreviation polled := (polled this env query).
Local Abbreviation registered := (registeredItem this env query).
Local Abbreviation completedEntry := (completedItem this env query).
Local Abbreviation failedEntry := (failedItem this env query).
Local Abbreviation tracking := (tracking this env query).
Local Abbreviation pollingEvents := (pollingEvents this env query).
Local Abbreviation registrationEvents := (registrationEvents this env query).
Local Abbreviation summaryOf :=
  (λ resultIndex, mapQueryResult (ext_now env) resultIndex key).

(** The world after the summary was stored. *)
Local Abbreviation stored := (λ w resultIndex,
  {| heap := heap (tracking w completedEntry);
     qhm_entries := qhm_entries (tracking w completedEntry);
     files := <[queryResultJson := QueryResultPayload (summaryOf resultIndex)]>
                (files (tracking w completedEntry)) |}).

(** A property that holds of the fourteen ways through [monitorRemoteQuery]
    holds of every run. *)
Lemma monitorRemoteQuery_ways (w : World)
    (P : Completion unit * World * list Event → Prop) :
  (∀ e, ext_createTimestampFile env [storagePath this; key] = Throw e →
        P (Throw e, w, [CreateTimestampFile [storagePath this; key]])) →
  (∀ e, ext_createTimestampFile env [storagePath this; key] = Normal tt →
        ext_writeFile env queryJson (QueryPayload query) = Throw e →
        P (Throw e, w, [CreateTimestampFile [storagePath this; key];
                        WriteFile queryJson (QueryPayload query)])) →
  (∀ e, ext_createTimestampFile env [storagePath this; key] = Normal tt →
        ext_writeFile env queryJson (QueryPayload query) = Normal tt →
        ext_Credentials_initialize env = Throw e →
        P (Throw e, tracking w registered,
           registrationEvents w ++ [InitializeCredentials])) →
  (∀ e credentials,
        ext_createTimestampFile env [storagePath this; key] = Normal tt →
        ext_writeFile env queryJson (QueryPayload query) = Normal tt →
        ext_Credentials_initialize env = Normal credentials →
        ext_monitorQuery env query = Throw e →
        P (Throw e, tracking w registered, pollingEvents w)) →
  (∀ credentials result, polled credentials result →
        wf_status result = InProgress →
        ext_showAndLogErrorMessage env unexpectedMessage = Normal tt →
        P (Normal tt, tracking w registered,
           pollingEvents w ++ [ShowAndLogErrorMessage unexpectedMessage;
                               RefreshTreeView])) →
  (∀ credentials result e, polled credentials result →
        wf_status result = InProgress →
        ext_showAndLogErrorMessage env unexpectedMessage = Throw e →
        P (Throw e, tracking w registered,
           pollingEvents w ++ [ShowAndLogErrorMessage unexpectedMessage])) →
  (∀ credentials result e, polled credentials result →
        wf_status result = CompletedSuccessfully →
        ext_getRemoteQueryIndex env credentials query = Throw e →
        P (Throw e, tracking w registered,
           pollingEvents w ++ [GetRemoteQueryIndex credentials query])) →
  (∀ credentials result, polled credentials result →
        wf_status result = CompletedSuccessfully →
        ext_getRemoteQueryIndex env credentials query = Normal None →
        P (Normal tt, tracking w registered,
           pollingEvents w ++ [GetRemoteQueryIndex credentials query;
                               ShowAndLogErrorMessage (retrievalMessage query)])) →
  (∀ credentials result resultIndex e, polled credentials result →
        wf_status result = CompletedSuccessfully →
        ext_getRemoteQueryIndex env credentials query = Normal (Some resultIndex) →
        ext_writeFile env queryResultJson (QueryResultPayload (summaryOf resultIndex))
        = Throw e →
        P (Throw e, tracking w completedEntry,
           pollingEvents w
             ++ [GetRemoteQueryIndex credentials query;
                 WriteFile queryResultJson
                   (QueryResultPayload (summaryOf resultIndex))])) →
  (∀ credentials result resultIndex, polled credentials result →
        wf_status result = CompletedSuccessfully →
        ext_getRemoteQueryIndex env credentials query = Normal (Some resultIndex) →
        ext_writeFile env queryResultJson (QueryResultPayload (summaryOf resultIndex))
        = Normal tt →
        P (Normal tt, stored w resultIndex,
           pollingEvents w
             ++ [GetRemoteQueryIndex credentials query;
                 WriteFile queryResultJson
                   (QueryResultPayload (summaryOf resultIndex));
                 ExecuteCommand autoDownloadCommand
                   (QueryResultPayload (summaryOf resultIndex));
                 askToOpenResults query (summaryOf resultIndex);
                 RefreshTreeView])) →
  (∀ credentials result, polled credentials result →
        wf_status result = CompletedUnsuccessfully →
        ext_showAndLogErrorMessage env (failedMessage result) = Normal tt →
        P (Normal tt, tracking w (failedEntry (wf_error result)),
           pollingEvents w ++ [ShowAndLogErrorMessage (failedMessage result);
                               RefreshTreeView])) →
  (∀ credentials result e, polled credentials result →
        wf_status result = CompletedUnsuccessfully →
        ext_showAndLogErrorMessage env (failedMessage result) = Throw e →
        P (Throw e, tracking w (failedEntry (wf_error result)),
           pollingEvents w ++ [ShowAndLogErrorMessage (failedMessage result)])) →
  (∀ credentials result, polled credentials result →
        wf_status result = Cancelled →
        ext_showAndLogErrorMessage env cancelledMessage = Normal tt →
        P (Normal tt, tracking w (failedEntry (Some "Cancelled")),
           pollingEvents w ++ [ShowAndLogErrorMessage cancelledMessage;
                               RefreshTreeView])) →
  (∀ credentials result e, polled credentials result →
        wf_status result = Cancelled →
        ext_showAndLogErrorMessage env cancelledMessage = Throw e →
        P (Throw e, tracking w (failedEntry (Some "Cancelled")),
           pollingEvents w ++ [ShowAndLogErrorMessage cancelledMessage])) →
  P (monitorRemoteQuery this query env w).
Proof.
  intros Wdir Wjson Wcred Wpoll Wprog Wprog' Windex' Wmissing Wwrite' Wfound
         Wfail Wfail' Wcancel Wcancel'.
  destruct (ext_createTimestampFile env [storagePath this; key])
    as [[] | e] eqn:Hdir;
    [| rewrite (monitorRemoteQuery_directory_rejected _ _ _ w _ Hdir); by apply Wdir].
  destruct (ext_writeFile env queryJson (QueryPayload query))
    as [[] | e] eqn:Hjson;
    [| rewrite (monitorRemoteQuery_query_json_rejected _ _ _ w _ Hdir Hjson);
       by apply Wjson].
  destruct (ext_Credentials_initialize env) as [credentials | e] eqn:Hcred;
    [| rewrite (monitorRemoteQuery_credentials_rejected _ _ _ w _ Hdir Hjson Hcred);
       by apply Wcred].
  destruct (ext_monitorQuery env query) as [result | e] eqn:Hres;
    [| rewrite (monitorRemoteQuery_poll_rejected _ _ _ w _ Hdir Hjson
                  (ex_intro _ _ Hcred) Hres); by eapply Wpoll].
  assert (Hpolled : polled credentials result) by done.
  destruct (wf_status result) eqn:Hstatus.
  - rewrite (monitorRemoteQuery_InProgress _ _ _ w _ _ Hpolled Hstatus). cbn zeta.
    destruct (ext_showAndLogErrorMessage env unexpectedMessage)
      as [[] | e] eqn:Hreport;
      [eapply Wprog | eapply Wprog']; by eauto.
  - destruct (ext_getRemoteQueryIndex env credentials query)
      as [[resultIndex |] | e] eqn:Hindex.
    + rewrite (monitorRemoteQuery_index_found _ _ _ w _ _ _ Hpolled Hstatus Hindex).
      cbn zeta.
      destruct (ext_writeFile env queryResultJson
                  (QueryResultPayload (summaryOf resultIndex)))
        as [[] | e] eqn:Hwrite;
        [eapply Wfound | eapply Wwrite']; by eauto.
    + rewrite (monitorRemoteQuery_index_missing _ _ _ w _ _ Hpolled Hstatus Hindex).
      by eapply Wmissing.
    + rewrite (monitorRemoteQuery_index_rejected _ _ _ w _ _ _ Hpolled Hstatus Hindex).
      by eapply Windex'.
  - rewrite (monitorRemoteQuery_CompletedUnsuccessfully _ _ _ w _ _ Hpolled Hstatus).
    cbn zeta.
    destruct (ext_showAndLogErrorMessage env (failedMessage result))
      as [[] | e] eqn:Hreport;
      [eapply Wfail | eapply Wfail']; by eauto.
  - rewrite (monitorRemoteQuery_Cancelled _ _ _ w _ _ Hpolled Hstatus). cbn zeta.
    destruct (ext_showAndLogErrorMessage env cancelledMessage)
      as [[] | e] eqn:Hreport;
      [eapply Wcancel | eapply Wcancel']; by eauto.
Qed.

End Ways.

(** * Properties of every run of monitorRemoteQuery *)

Section EveryRun.
Variables (this : RemoteQueriesManager) (env : Env) (query : RemoteQuery).

Local Abbreviation key := (storageKey env query).
Local Abbreviation queryJson := (queryJsonPath this env query).
Local Abbreviation queryResultJson := (queryResultJsonPath this env query).
Local Abbreviation polled := (polled this env query).
Local Abbreviation registered := (registeredItem this env query).
Local Abbreviation tracking := (tracking this env query).
Local Abbreviation pollingEvents := (pollingEvents this env query).
Local Abbreviation registrationEvents := (registrationEvents this env query).

Lemma queryResultJson_fresh : queryResultJson ≠ queryJson.
Proof. by intros [=]. Qed.

Lemma heap_unallocated (w : World) (item : RemoteQueryHistoryItem) :
  heap w !! length (heap w) = Some item → False.
Proof. intros Hl. apply lookup_lt_Some in Hl. lia. Qed.

Ltac every_way w :=
  pattern (monitorRemoteQuery this query env w);
  apply monitorRemoteQuery_ways; intros;
  cbn [pollingEvents registrationEvents app tracking heap qhm_entries files].

Ltac by_position Hi :=
  cbn in Hi;
  repeat (match type of Hi with
          | (_ :: _) !! ?i = Some _ => destruct i; cbn in Hi
          end; [by simplify_eq |]);
  by simplify_eq.

Ltac among_events Hin :=
  rewrite !elem_of_cons, elem_of_nil in Hin;
  decompose [or] Hin; simplify_eq; try done.

Ltac no_such_event := repeat constructor; unfold not; cbn; tauto.


(** X2.  Whenever the entry of this run exists it is the one the history manager
    tracks, it carries the job's name, storage key and storage path, its
    completed flag is set exactly when its status is [Completed], and it has
    a failure reason only when its status is [Failed].  A run that returns
    normally has such an entry. *)
Theorem monitorRemoteQuery_entry_invariant (w : World) :
  let '(res, w', _) := monitorRemoteQuery this query env w in
  (res = Normal tt → is_Some (heap w' !! length (heap w)))
  ∧ (∀ item, heap w' !! length (heap w) = Some item →
       length (heap w) ∈ qhm_entries w'
       ∧ label item = queryName query
       ∧ hi_queryId item = key
       ∧ hi_storagePath item = storagePath this
       ∧ (completed item = true ↔ status item = QueryStatus.Completed)
       ∧ (is_Some (failureReason item) → status item = QueryStatus.Failed)).
Proof.
  every_way w;
    (split; [first [ done | intros _; by rewrite lookup_new_object ] |]);
    intros item Hitem;
    try (exfalso; by eapply heap_unallocated);
    rewrite lookup_new_object in Hitem; simplify_eq;
    (split; [rewrite elem_of_app, list_elem_of_singleton; by right |]);
    cbn; repeat split; try done; by intros [? ?].
Qed.

(** X3.  The refresh of the history view can only be the last event of a run, and
    only of a run that returns normally: a run in which an awaited step
    rejects does not refresh. *)
Theorem monitorRemoteQuery_refresh_only_last (w : World) :
  let '(res, _, evs) := monitorRemoteQuery this query env w in
  ∀ i, evs !! i = Some RefreshTreeView → S i = length evs ∧ res = Normal tt.
Proof.
  every_way w;
    match goal with Hi : _ !! _ = Some RefreshTreeView |- _ => by_position Hi end.
Qed.

(** X4.  The index is retrieved only for this job, with the credentials obtained
    after the registration, and only after the poll answered
    [CompletedSuccessfully]; after such an answer it is always requested. *)
Theorem monitorRemoteQuery_index_only_after_success (w : World) :
  let '(_, _, evs) := monitorRemoteQuery this query env w in
  (∀ credentials q, GetRemoteQueryIndex credentials q ∈ evs →
     q = query
     ∧ ext_Credentials_initialize env = Normal credentials
     ∧ ∃ result, ext_monitorQuery env query = Normal result
                 ∧ wf_status result = CompletedSuccessfully)
  ∧ (∀ credentials result, polled credentials result →
       wf_status result = CompletedSuccessfully →
       GetRemoteQueryIndex credentials query ∈ evs).
Proof.
  every_way w;
    (split;
     [ intros c q Hin; among_events Hin;
       match goal with H : polled _ _ |- _ => destruct H end; by eauto
     | intros c r [Hd Hj Hc Hr] Hs;
       try match goal with H : polled _ _ |- _ => destruct H end;
       first [ congruence
             | rewrite !elem_of_cons; do 5 right; left; congruence ] ]).
Qed.

(** X5.  A run that returns normally has done one of two things, never both: it
    has reported an error and neither written a summary nor triggered a
    command, or it has reported nothing, stored the summary and triggered the
    auto-download of that same summary. *)
Theorem monitorRemoteQuery_reports_or_persists (w : World) :
  let '(res, w', evs) := monitorRemoteQuery this query env w in
  res = Normal tt →
  (Exists errorReport evs
   ∧ Forall (λ e, ¬ writesSummary e ∧ ¬ commandTriggered e) evs
   ∧ files w' !! queryResultJson = files w !! queryResultJson)
  ∨ (Forall (λ e, ¬ errorReport e) evs
     ∧ ∃ summary,
         files w' !! queryResultJson = Some (QueryResultPayload summary)
         ∧ ExecuteCommand autoDownloadCommand (QueryResultPayload summary) ∈ evs).
Proof.
  every_way w; try done.
  all: first
    [ left; split;
      [ repeat first [apply Exists_cons_hd; exact I | apply Exists_cons_tl]
      | split; [ no_such_event
               | by rewrite lookup_insert_ne
                   by apply not_eq_sym, queryResultJson_fresh ] ]
    | right; split;
      [ no_such_event
      | eexists; split;
        [ by rewrite lookup_insert_eq
        | rewrite !elem_of_cons; do 7 right; by left ] ] ].
Qed.

(** X6.  The storage directory is created, successfully, before any file is
    written, and every path a run creates or writes lies in that directory,
    [storagePath/queryId]. *)
Theorem monitorRemoteQuery_writes_under_directory (w : World) :
  let '(_, _, evs) := monitorRemoteQuery this query env w in
  precedes
    (λ e, e = CreateTimestampFile [storagePath this; key]
          ∧ ext_createTimestampFile env [storagePath this; key] = Normal tt)
    fileWrite evs
  ∧ (∀ e p, e ∈ evs → writtenPath e = Some p →
       [storagePath this; key] `prefix_of` p).
Proof.
  every_way w;
    try match goal with H : polled _ _ |- _ => destruct H end;
    (split;
     [ repeat first
         [ apply precedes_nil
         | apply precedes_found; [by split | by intros []]
         | apply precedes_skip; [by intros [] |] ]
     | intros ev p Hin Hp; among_events Hin; cbn in Hp; simplify_eq;
       first [ by exists [] | by eexists [_] ] ]).
Qed.

End EveryRun.

(** * Further outcomes of monitorRemoteQuery *)

Section Outcomes.
Variables (this : RemoteQueriesManager) (env : Env) (query : RemoteQuery).

Local Abbreviation key := (storageKey env query).
Local Abbreviation queryJson := (queryJsonPath this env query).
Local Abbreviation queryResultJson := (queryResultJsonPath this env query).
Local Abbreviation polled := (polled this env query).
Local Abbreviation registered := (registeredItem this env query).
Local Abbreviation tracking := (tracking this env query).
Local Abbreviation pollingEvents := (pollingEvents this env query).
Local Abbreviation registrationEvents := (registrationEvents this env query).

Ltac show_world :=
  cbn [pollingEvents registrationEvents app tracking heap qhm_entries files].

Ltac none_of_kind := repeat constructor; unfold not; cbn; tauto.

Ltac is_event := rewrite !elem_of_cons; naive_solver.

Ltac is_no_event :=
  rewrite !not_elem_of_cons; repeat split;
  first [discriminate | apply not_elem_of_nil].

(** X7.  After the outcome [CompletedUnsuccessfully] the tracked entry has status
    [Failed], is not completed, and its failure reason is the monitor's error
    as it came, also when that is [undefined]; the report reads "Remote query
    execution failed. Error: " followed by the error, or by "undefined" when
    there is none; no summary is written and no command is triggered; the run
    returns normally exactly when the report fulfils. *)
Theorem monitorRemoteQuery_CompletedUnsuccessfully_outcome
    (w : World) credentials result :
  polled credentials result →
  wf_status result = CompletedUnsuccessfully →
  let '(res, w', evs) := monitorRemoteQuery this query env w in
  let message := "Remote query execution failed. Error: "
                   +:+ default "undefined" (wf_error result) in
  (∃ item, heap w' !! length (heap w) = Some item
     ∧ status item = QueryStatus.Failed
     ∧ failureReason item = wf_error result
     ∧ completed item = false)
  ∧ ShowAndLogErrorMessage message ∈ evs
  ∧ Forall (λ e, ¬ writesSummary e ∧ ¬ commandTriggered e) evs
  ∧ files w' = <[queryJson := QueryPayload query]> (files w)
  ∧ res = ext_showAndLogErrorMessage env message
  ∧ (res = Normal tt → last evs = Some RefreshTreeView).
Proof.
  intros Hpolled Hstatus.
  rewrite (monitorRemoteQuery_CompletedUnsuccessfully _ _ _ w _ _ Hpolled Hstatus).
  cbn zeta. unfold failedMessage, interpolate.
  destruct (ext_showAndLogErrorMessage env _) as [[] | e]; show_world;
    (split; [eexists; by rewrite lookup_new_object |]);
    (split; [is_event |]);
    (split; [none_of_kind |]); done.
Qed.




(** X11.  When the credentials cannot be obtained or the poll rejects, the run
    rejects with that error after the entry was registered: the entry stays
    tracked as constructed (status [InProgress]), [query.json] stays written,
    nothing is reported and the history view is not refreshed. *)
Theorem monitorRemoteQuery_rejected_while_tracked (w : World) e :
  ext_createTimestampFile env [storagePath this; key] = Normal tt →
  ext_writeFile env queryJson (QueryPayload query) = Normal tt →
  ext_Credentials_initialize env = Throw e
  ∨ ((∃ credentials, ext_Credentials_initialize env = Normal credentials)
     ∧ ext_monitorQuery env query = Throw e) →
  let '(res, w', evs) := monitorRemoteQuery this query env w in
  res = Throw e
  ∧ length (heap w) ∈ qhm_entries w'
  ∧ (∃ item, heap w' !! length (heap w) = Some item
       ∧ item = registered
       ∧ status item = QueryStatus.InProgress)
  ∧ files w' !! queryJson = Some (QueryPayload query)
  ∧ Forall (λ ev, ¬ errorReport ev) evs
  ∧ (RefreshTreeView ∉ evs).
Proof.
  intros Hdir Hjson [Hcred | [Hcred Hpoll]].
  - rewrite (monitorRemoteQuery_credentials_rejected _ _ _ w _ Hdir Hjson Hcred).
    show_world. split; [done |].
    split; [rewrite elem_of_app, list_elem_of_singleton; by right |].
    split; [eexists; by rewrite lookup_new_object |].
    split; [by rewrite lookup_insert_eq |].
    split; [none_of_kind | is_no_event].
  - rewrite (monitorRemoteQuery_poll_rejected _ _ _ w _ Hdir Hjson Hcred Hpoll).
    show_world. split; [done |].
    split; [rewrite elem_of_app, list_elem_of_singleton; by right |].
    split; [eexists; by rewrite lookup_new_object |].
    split; [by rewrite lookup_insert_eq |].
    split; [none_of_kind | is_no_event].
Qed.

End Outcomes.

(** * Every run of runRemoteQuery *)

Section EverySubmission.
Variables (env : Env) (uri : option Uri).


End EverySubmission.

(** * Storage keys *)

Lemma string_length_app (s1 s2 : string) :
  String.length (s1 +:+ s2) = (String.length s1 + String.length s2)%nat.
Proof. induction s1 as [| c s1 IH]; simpl; [done | by rewrite IH]. Qed.

Lemma string_app_inj_suffix (a1 a2 b1 b2 : string) :
  String.length b1 = String.length b2 →
  a1 +:+ b1 = a2 +:+ b2 → a1 = a2 ∧ b1 = b2.
Proof.
  intros Hlen. revert a2.
  induction a1 as [| c a1 IH]; intros [| c' a2] Heq.
  - change (b1 = b2) in Heq. done.
  - exfalso. change (b1 = String c' (a2 +:+ b2)) in Heq. subst b1.
    simpl in Hlen. rewrite string_length_app in Hlen. lia.
  - exfalso. change (String c (a1 +:+ b1) = b2) in Heq. subst b2.
    simpl in Hlen. rewrite string_length_app in Hlen. lia.
  - change (String c (a1 +:+ b1) = String c' (a2 +:+ b2)) in Heq.
    injection Heq as -> Heq. destruct (IH _ Heq) as [-> ->]. done.
Qed.

(** X13.  [createQueryId] never fails and leaves the world alone; its key is the
    query name, a dash and the generated identifier.  For one query name,
    different identifiers give different keys.  When the generated
    identifiers have the same length, equal keys come from equal names and
    equal identifiers; without that, two different names can share a key. *)
Theorem createQueryId_keys :
  (∀ name env w,
     createQueryId name env w = (Normal (name +:+ "-" +:+ ext_nanoid env), w, []))
  ∧ (∀ name id1 id2, name +:+ "-" +:+ id1 = name +:+ "-" +:+ id2 → id1 = id2)
  ∧ (∀ name1 name2 id1 id2,
       String.length id1 = String.length id2 →
       name1 +:+ "-" +:+ id1 = name2 +:+ "-" +:+ id2 →
       name1 = name2 ∧ id1 = id2)
  ∧ (∃ name1 name2 id1 id2,
       name1 ≠ name2 ∧ name1 +:+ "-" +:+ id1 = name2 +:+ "-" +:+ id2).
Proof.
  split; [done |]. split; [| split].
  - intros name id1 id2 Heq.
    apply (inj (String.app name)) in Heq. by apply (inj (String.app "-")) in Heq.
  - intros name1 name2 id1 id2 Hlen Heq.
    apply string_app_inj_suffix in Heq as [-> Heq].
    + split; [done |]. by apply (inj (String.app "-")) in Heq.
    + change (S (String.length id1) = S (String.length id2)). by rewrite Hlen.
  - exists "q", "q-a", "a-b", "b". split; [done | reflexivity].
Qed.

(** * More on the admission filter *)

Section AdmissionByPosition.
Variable queryResult : RemoteQueryResult.

(** X14.  Where a summary stands decides whether it is requested.  A summary under
    the cap that has fewer than 100 summaries under the cap before it is
    requested, at the position that count gives; one that has 100 or more
    before it is not, and then exactly 100 requests are made.  A summary at
    or over the cap could be removed without changing the requests. *)
Theorem analysesToDownload_position (pre post : list AnalysisSummary)
    (a : AnalysisSummary) :
  analysisSummaries queryResult = pre ++ a :: post →
  let k := length (filter underMaxSize pre) in
  (fileSizeInBytes a < 300 * 1024 → (k < 100)%nat →
     analysesToDownload queryResult !! k = Some (toDownloadRequest a))
  ∧ (fileSizeInBytes a < 300 * 1024 → (100 ≤ k)%nat →
       analysesToDownload queryResult !! k = None
       ∧ length (analysesToDownload queryResult) = 100%nat)
  ∧ (300 * 1024 ≤ fileSizeInBytes a →
       analysesToDownload queryResult
       = analysesToDownload
           {| executionEndTime := executionEndTime queryResult;
              analysisSummaries := pre ++ post |}).
Proof.
  intros Hsplit k. unfold analysesToDownload, slice0. rewrite Hsplit.
  cbn [analysisSummaries]. rewrite !filter_app.
  split; [| split].
  - intros Hsmall Hk. rewrite filter_cons_True by done.
    rewrite list_lookup_fmap, lookup_take_lt by done.
    by rewrite list_lookup_middle.
  - intros Hsmall Hk. rewrite filter_cons_True by done. split.
    + rewrite list_lookup_fmap, lookup_take_ge; done.
    + rewrite length_fmap, length_take, length_app. fold k.
      unfold autoDownloadMaxCount. lia.
  - intros Hbig. rewrite filter_cons_False; [done |].
    unfold underMaxSize, autoDownloadMaxSize. lia.
Qed.

Lemma filter_underMaxSize_nil (l : list AnalysisSummary) :
  filter underMaxSize l = [] ↔ Forall (λ a, 300 * 1024 ≤ fileSizeInBytes a) l.
Proof.
  induction l as [| a l IH]; [by split |].
  destruct (decide (underMaxSize a)) as [Hsmall | Hbig].
  - rewrite filter_cons_True by done. split; [done |].
    intros Hall. apply Forall_cons in Hall as [Ha _].
    unfold underMaxSize, autoDownloadMaxSize in Hsmall. lia.
  - rewrite filter_cons_False by done. rewrite IH, Forall_cons.
    unfold underMaxSize, autoDownloadMaxSize in Hbig. split; [| tauto].
    intros Hall. split; [lia | done].
Qed.

(** X15.  Nothing is requested exactly when every summary is at or over the cap
    (in particular for an empty summary list); the download engine is then
    still called, with an empty list of requests, and the operation returns
    what the engine answers. *)
Theorem autoDownload_nothing_to_request :
  (analysesToDownload queryResult = []
   ↔ Forall (λ a, 300 * 1024 ≤ fileSizeInBytes a) (analysisSummaries queryResult))
  ∧ (Forall (λ a, 300 * 1024 ≤ fileSizeInBytes a) (analysisSummaries queryResult) →
     ∀ env w,
       autoDownloadRemoteQueryResults queryResult env w
       = (ext_downloadAnalysesResults env [], w, [DownloadAnalysesResults []])).
Proof.
  assert (Hiff : analysesToDownload queryResult = []
            ↔ Forall (λ a, 300 * 1024 ≤ fileSizeInBytes a)
                (analysisSummaries queryResult)).
  { rewrite <- filter_underMaxSize_nil. unfold analysesToDownload, slice0. split.
    - intros Hnil. apply fmap_nil_inv, take_nil_inv in Hnil as [Hz | Hnil];
        [done | exact Hnil].
    - by intros ->. }
  split; [exact Hiff |].
  intros Hall env w. apply Hiff in Hall.
  unfold autoDownloadRemoteQueryResults,
    analysesResultsManager_downloadAnalysesResults, await.
  by rewrite Hall.
Qed.

End AdmissionByPosition.

Lemma toDownloadRequest_inj (a b : AnalysisSummary) :
  toDownloadRequest a = toDownloadRequest b → a = b.
Proof.
  destruct a, b. unfold toDownloadRequest; cbn. intros [= -> -> -> Hsize].
  apply (inj pretty) in Hsize. by subst.
Qed.

(** X16.  A request keeps everything of its summary: two summaries with the same
    request are the same summary, the size being read back from its decimal
    string.  So summaries without duplicates give requests without
    duplicates. *)
Theorem analysesToDownload_no_duplicates (queryResult : RemoteQueryResult) :
  (∀ a b, toDownloadRequest a = toDownloadRequest b → a = b)
  ∧ (NoDup (analysisSummaries queryResult) →
     NoDup (analysesToDownload queryResult)).
Proof.
  split; [apply toDownloadRequest_inj |].
  intros Hnodup. unfold analysesToDownload.
  apply NoDup_fmap_2_strong.
  - intros a b _ _. apply toDownloadRequest_inj.
  - eapply sublist_NoDup; [exact Hnodup | apply analysesToDownload_kept].
Qed.

(** * More on the result mapper *)

Section MapperDetails.
Variables (resultIndex : RemoteQueryResultIndex) (storageKey : string).

(** X17.  The mapping does not keep everything of an entry.  When the SARIF size is
    present and nonzero the summary does not depend on the BQRS size; a SARIF
    size of zero gives the same summary as an absent one. *)
Theorem mapItem_forgets (item : RemoteQueryResultIndexItem) :
  (∀ s bqrs, item_sarifFileSize item = Some s → s ≠ 0 →
     mapItem resultIndex storageKey
       {| item_artifactId := item_artifactId item; item_nwo := item_nwo item;
          item_resultCount := item_resultCount item;
          item_bqrsFileSize := bqrs; item_sarifFileSize := Some s |}
     = mapItem resultIndex storageKey item)
  ∧ mapItem resultIndex storageKey
      {| item_artifactId := item_artifactId item; item_nwo := item_nwo item;
         item_resultCount := item_resultCount item;
         item_bqrsFileSize := item_bqrsFileSize item;
         item_sarifFileSize := Some 0 |}
    = mapItem resultIndex storageKey
        {| item_artifactId := item_artifactId item; item_nwo := item_nwo item;
           item_resultCount := item_resultCount item;
           item_bqrsFileSize := item_bqrsFileSize item;
           item_sarifFileSize := None |}.
Proof.
  split; [| done].
  intros s bqrs Hs Hnz. unfold mapItem.
  cbn [item_sarifFileSize item_artifactId item_nwo item_resultCount
       item_bqrsFileSize].
  by rewrite Hs, (truthy_Some_nonzero s Hnz).
Qed.


End MapperDetails.





(** * From monitoring to auto-download *)



Section Composition.
Variables (this : RemoteQueriesManager) (env : Env) (query : RemoteQuery).

Local Abbreviation key := (storageKey env query).


End Composition.

(** * The further outcomes on the sample inputs *)

Module FurtherOnSample.

Import Sample.

Lemma monitorRemoteQuery_reports_or_persists_witness :
  let '(res, w', evs) :=
    monitorRemoteQuery manager job Rejecting.successful world in
  res = Normal tt
  ∧ ((Exists errorReport evs
      ∧ Forall (λ e, ¬ writesSummary e ∧ ¬ commandTriggered e) evs
      ∧ files w' !! queryResultJsonPath manager Rejecting.successful job
        = files world !! queryResultJsonPath manager Rejecting.successful job)
     ∨ (Forall (λ e, ¬ errorReport e) evs
        ∧ ∃ summary,
            files w' !! queryResultJsonPath manager Rejecting.successful job
            = Some (QueryResultPayload summary)
            ∧ ExecuteCommand autoDownloadCommand (QueryResultPayload summary)
              ∈ evs)).
Proof.
  pose proof (monitorRemoteQuery_reports_or_persists
                manager Rejecting.successful job world) as Hrun.
  assert (Hres : (monitorRemoteQuery manager job Rejecting.successful world).1.1
                 = Normal tt) by (vm_compute; reflexivity).
  destruct (monitorRemoteQuery manager job _ world) as [[res w'] evs].
  split; [exact Hres | exact (Hrun Hres)].
Defined.

Lemma monitorRemoteQuery_CompletedUnsuccessfully_outcome_witness :
  let '(res, w', evs) :=
    monitorRemoteQuery manager job (answering CompletedUnsuccessfully None) world in
  (∃ item, heap w' !! 1%nat = Some item
     ∧ status item = QueryStatus.Failed
     ∧ failureReason item = Some "boom"
     ∧ completed item = false)
  ∧ ShowAndLogErrorMessage "Remote query execution failed. Error: boom" ∈ evs
  ∧ Forall (λ e, ¬ writesSummary e ∧ ¬ commandTriggered e) evs
  ∧ files w'
    = <[["/storage"; "find-xss-V1StGXR8"; "query.json"] := QueryPayload job]>
        (files world)
  ∧ res = Normal tt
  ∧ (res = Normal tt → last evs = Some RefreshTreeView).
Proof.
  exact (monitorRemoteQuery_CompletedUnsuccessfully_outcome
           manager (answering CompletedUnsuccessfully None) job world
           credentials (outcome CompletedUnsuccessfully)
           (OnSample.polled_sample _ _) eq_refl).
Defined.





Lemma monitorRemoteQuery_rejected_while_tracked_witness :
  let '(res, w', evs) :=
    monitorRemoteQuery manager job Rejecting.signIn world in
  res = Throw "not signed in"
  ∧ 1%nat ∈ qhm_entries w'
  ∧ (∃ item, heap w' !! 1%nat = Some item
       ∧ item = registeredItem manager Rejecting.signIn job
       ∧ status item = QueryStatus.InProgress)
  ∧ files w' !! ["/storage"; "find-xss-V1StGXR8"; "query.json"]
    = Some (QueryPayload job)
  ∧ Forall (λ ev, ¬ errorReport ev) evs
  ∧ (RefreshTreeView ∉ evs).
Proof.
  exact (monitorRemoteQuery_rejected_while_tracked
           manager Rejecting.signIn job world "not signed in"
           eq_refl eq_refl (or_introl eq_refl)).
Defined.

(** The second summary of the sample index is over the cap, the third is
    under it and has one summary under the cap before it. *)
Lemma analysesToDownload_position_witness :
  analysesToDownload (mapQueryResult 0 index "key") !! 1%nat
  = Some (toDownloadRequest
            {| nwo := "octo/gamma"; resultCount := 0; fileSizeInBytes := 50000;
               downloadLink :=
                 {| id := "13";
                    urlPath := "/repos/octo/controller/actions/artifacts/13";
                    innerFilePath := "results.bqrs"; queryId := "key" |} |}).
Proof.
  refine (proj1 (analysesToDownload_position (mapQueryResult 0 index "key")
                   (take 2 (analysisSummaries (mapQueryResult 0 index "key")))
                   [] _ eq_refl) _ _); [by vm_compute | vm_compute; lia].
Defined.

End FurtherOnSample.
